(** * Buri simulator front end: the LCD view, the terminal bridge and the
      memory page view

    A shallow embedding of [burisim/ui/display.py] and of the [MemoryView]
    of [burisim/__init__.py].  Python integers are [Z], Python lists and
    byte sequences are [list Z], Python exceptions are the [Raise] branch
    of [result], and the state of a widget is threaded explicitly. *)

From Stdlib Require Import ZArith Lia Bool Ascii.
From stdpp Require Import base list strings.

Local Open Scope Z_scope.

(** ** The fragment of Python the sources rely on *)

Module Py.

Inductive exn : Type :=
| IndexError
| AttributeError
| RuntimeError.

Inductive result (A : Type) : Type :=
| Ok (a : A)
| Raise (e : exn).
Arguments Ok {A} a.
Arguments Raise {A} e.

Definition bind {A B} (m : result A) (k : A -> result B) : result B :=
  match m with
  | Ok a => k a
  | Raise e => Raise e
  end.

Notation "x <~ m ;; k" := (bind m (fun x => k))
  (at level 100, m at level 99, k at level 200, right associativity).

(** [len(l)] *)
Definition len {A} (l : list A) : Z := Z.of_nat (length l).

(** [l[i]] on a list: a negative index counts from the end, anything
    outside [-len, len) raises [IndexError]. *)
Definition getitem {A} (l : list A) (i : Z) : result A :=
  let j := if i <? 0 then i + len l else i in
  if (0 <=? j) && (j <? len l) then
    match l !! Z.to_nat j with
    | Some x => Ok x
    | None => Raise IndexError
    end
  else Raise IndexError.

(** How a slice bound is brought into [0, len]. *)
Definition clamp (n i : Z) : Z :=
  if i <? 0 then Z.max (i + n) 0 else Z.min i n.

(** [l[a:b]]: never raises, out-of-range bounds are clamped. *)
Definition slice {A} (l : list A) (a b : Z) : list A :=
  let lo := clamp (len l) a in
  let hi := clamp (len l) b in
  take (Z.to_nat (hi - lo)) (drop (Z.to_nat lo) l).

(** [range(n)] and [range(a, b, step)] for a positive step. *)
Definition range (n : nat) : list Z := Z.of_nat <$> seq 0 n.

Definition range3 (a b step : Z) : list Z :=
  (fun k => a + step * k) <$> range (Z.to_nat ((b - a + step - 1) / step)).

(** [enumerate(l)] *)
Definition enumerate {A} (l : list A) : list (Z * A) :=
  imap (fun i x => (Z.of_nat i, x)) l.

(** [for x in l: body(x)] over a state, stopping at the first exception. *)
Fixpoint for_each {A S} (l : list A) (body : A -> S -> result S) (s : S)
  : result S :=
  match l with
  | [] => Ok s
  | x :: l' => s' <~ body x s ;; for_each l' body s'
  end.

End Py.

Import Py.

(** ** [burisim/ui/display.py] *)

Module Display.

(** *** What the module uses of Qt *)

(** [QtGui.qRgb(r, g, b)]: an opaque [0xffRRGGBB] value. *)
Definition qRgb (r g b : Z) : Z :=
  Z.lor (Z.shiftl 255 24)
    (Z.lor (Z.shiftl (Z.land r 255) 16)
       (Z.lor (Z.shiftl (Z.land g 255) 8) (Z.land b 255))).

(** One [QPainter.fillRect(x, y, w, h, colour)] call. *)
Record FillRect : Type := mkFillRect {
  fr_x : Z; fr_y : Z; fr_w : Z; fr_h : Z; fr_colour : Z
}.

(** A [QImage]: its size, the colour it was [fill]ed with and the
    rectangles painted on it since, oldest first. *)
Record QImage : Type := mkQImage {
  im_width : Z; im_height : Z; im_fill : Z; im_rects : list FillRect
}.

(** One [QPainter.drawImage(x, y, im)] call on the widget. *)
Record DrawImage : Type := mkDrawImage {
  di_x : Z; di_y : Z; di_image : QImage
}.

Definition covers (fr : FillRect) (x y : Z) : bool :=
  (fr_x fr <=? x) && (x <? fr_x fr + fr_w fr) &&
  (fr_y fr <=? y) && (y <? fr_y fr + fr_h fr).

(** The colour of pixel [(x, y)] of an image: the last rectangle painted
    over it, or the fill colour. *)
Definition pixel (im : QImage) (x y : Z) : Z :=
  fold_left (fun col fr => if covers fr x y then fr_colour fr else col)
    (im_rects im) (im_fill im).

(** *** The character ROM *)

Definition CHAR_ROM : list (list Z) := [
  [ 0;  0;  0;  0;  0;  0;  0];
  [ 0;  0;  0;  0;  0;  0;  0];
  [ 0;  0;  0;  0;  0;  0;  0];
  [ 0;  0;  0;  0;  0;  0;  0];
  [ 0;  0;  0;  0;  0;  0;  0];
  [ 0;  0;  0;  0;  0;  0;  0];
  [ 0;  0;  0;  0;  0;  0;  0];
  [ 0;  0;  0;  0;  0;  0;  0];
  [ 0;  0;  0;  0;  0;  0;  0];
  [ 0;  0;  0;  0;  0;  0;  0];
  [ 0;  0;  0;  0;  0;  0;  0];
  [ 0;  0;  0;  0;  0;  0;  0];
  [ 0;  0;  0;  0;  0;  0;  0];
  [ 0;  0;  0;  0;  0;  0;  0];
  [ 0;  0;  0;  0;  0;  0;  0];
  [ 0;  0;  0;  0;  0;  0;  0];
  [ 0;  0;  0;  0;  0;  0;  0];
  [ 0;  0;  0;  0;  0;  0;  0];
  [ 0;  0;  0;  0;  0;  0;  0];
  [ 0;  0;  0;  0;  0;  0;  0];
  [ 0;  0;  0;  0;  0;  0;  0];
  [ 0;  0;  0;  0;  0;  0;  0];
  [ 0;  0;  0;  0;  0;  0;  0];
  [ 0;  0;  0;  0;  0;  0;  0];
  [ 0;  0;  0;  0;  0;  0;  0];
  [ 0;  0;  0;  0;  0;  0;  0];
  [ 0;  0;  0;  0;  0;  0;  0];
  [ 0;  0;  0;  0;  0;  0;  0];
  [ 0;  0;  0;  0;  0;  0;  0];
  [ 0;  0;  0;  0;  0;  0;  0];
  [ 0;  0;  0;  0;  0;  0;  0];
  [ 0;  0;  0;  0;  0;  0;  0];
  [ 0;  0;  0;  0;  0;  0;  0];
  [ 4;  4;  4;  4;  4;  0;  4];
  [10; 10; 10;  0;  0;  0;  0];
  [10; 10; 31; 10; 31; 10; 10];
  [ 4; 15; 20; 14;  5; 30;  4];
  [24; 25;  2;  4;  8; 19;  3];
  [12; 18; 20;  8; 21; 18; 13];
  [12;  4;  8;  0;  0;  0;  0];
  [ 2;  4;  8;  8;  8;  4;  2];
  [ 8;  4;  2;  2;  2;  4;  8];
  [ 0;  4; 21; 14; 21;  4;  0];
  [ 0;  4;  4; 31;  4;  4;  0];
  [ 0;  0;  0;  0; 12;  4;  8];
  [ 0;  0;  0; 31;  0;  0;  0];
  [ 0;  0;  0;  0;  0; 12; 12];
  [ 0;  1;  2;  4;  8; 16;  0];
  [14; 17; 19; 21; 25; 17; 14];
  [ 4; 12;  4;  4;  4;  4; 14];
  [14; 17;  1;  2;  4;  8; 31];
  [31;  2;  4;  2;  1; 17; 14];
  [ 2;  6; 10; 18; 31;  2;  2];
  [31; 16; 30;  1;  1; 17; 14];
  [ 6;  8; 16; 30; 17; 17; 14];
  [31;  1;  2;  4;  8;  8;  8];
  [14; 17; 17; 14; 17; 17; 14];
  [14; 17; 17; 15;  1;  2; 12];
  [ 0; 12; 12;  0; 12; 12;  0];
  [ 0; 12; 12;  0; 12;  4;  8];
  [ 2;  4;  8; 16;  8;  4;  2];
  [ 0;  0; 31;  0; 31;  0;  0];
  [16;  8;  4;  2;  4;  8; 16];
  [14; 17;  1;  2;  4;  0;  4];
  [14; 17;  1; 13; 21; 21; 14];
  [14; 17; 17; 17; 31; 17; 17];
  [30; 17; 17; 30; 17; 17; 30];
  [14; 17; 16; 16; 16; 17; 14];
  [30; 17; 17; 17; 17; 17; 30];
  [31; 16; 16; 30; 16; 16; 31];
  [31; 16; 16; 30; 16; 16; 16];
  [14; 17; 16; 23; 17; 17; 15];
  [17; 17; 17; 31; 17; 17; 17];
  [14;  4;  4;  4;  4;  4; 14];
  [ 7;  2;  2;  2;  2; 18; 12];
  [17; 18; 20; 24; 20; 18; 17];
  [16; 16; 16; 16; 16; 16; 31];
  [17; 27; 21; 21; 17; 17; 17];
  [17; 17; 25; 21; 19; 17; 17];
  [14; 17; 17; 17; 17; 17; 14];
  [30; 17; 17; 30; 16; 16; 16];
  [14; 17; 17; 17; 21; 18; 13];
  [30; 17; 17; 30; 20; 18; 17];
  [15; 16; 16; 14;  1;  1; 30];
  [31;  4;  4;  4;  4;  4;  4];
  [17; 17; 17; 17; 17; 17; 14];
  [17; 17; 17; 17; 17; 10;  4];
  [17; 17; 17; 21; 21; 21; 10];
  [17; 17; 10;  4; 10; 17; 17];
  [17; 17; 17; 10;  4;  4;  4];
  [31;  1;  2;  4;  8; 16; 31];
  [14;  8;  8;  8;  8;  8; 14];
  [17; 10; 31;  4; 31;  4;  4];
  [14;  2;  2;  2;  2;  2; 14];
  [ 4; 10; 17;  0;  0;  0;  0];
  [ 0;  0;  0;  0;  0;  0; 31];
  [ 8;  4;  2;  0;  0;  0;  0];
  [ 0;  0; 14;  1; 15; 17; 15];
  [16; 16; 22; 25; 17; 17; 30];
  [ 0;  0; 14; 16; 16; 17; 14];
  [ 1;  1; 13; 19; 17; 17; 15];
  [ 0;  0; 14; 17; 31; 16; 14];
  [ 6;  9;  8; 28;  8;  8;  8];
  [ 0;  0; 15; 17; 15;  1; 14];
  [16; 16; 22; 25; 17; 17; 17];
  [ 4;  0; 12;  4;  4;  4; 14];
  [ 2;  6;  2;  2;  2; 18; 12];
  [16; 16; 18; 20; 24; 20; 18];
  [12;  4;  4;  4;  4;  4; 14];
  [ 0;  0; 26; 21; 21; 17; 17];
  [ 0;  0; 22; 25; 17; 17; 17];
  [ 0;  0; 14; 17; 17; 17; 14];
  [ 0;  0; 30; 17; 30; 16; 16];
  [ 0;  0; 13; 19; 15;  1;  1];
  [ 0;  0; 22; 25; 16; 16; 16];
  [ 0;  0; 15; 16; 14;  1; 30];
  [ 8;  8; 28;  8;  8;  9;  6];
  [ 0;  0; 17; 17; 17; 19; 13];
  [ 0;  0; 17; 17; 17; 10;  4];
  [ 0;  0; 17; 17; 21; 21; 10];
  [ 0;  0; 17; 10;  4; 10; 17];
  [ 0;  0; 17; 17; 15;  1; 14];
  [ 0;  0; 31;  2;  4;  8; 31];
  [ 2;  4;  4;  8;  4;  4;  2];
  [ 4;  4;  4;  4;  4;  4;  4];
  [ 8;  4;  4;  2;  4;  4;  8];
  [ 0;  4;  2; 31;  2;  4;  0];
  [ 0;  4;  8; 31;  8;  4;  0];
  [ 0;  0;  0;  0;  0;  0;  0];
  [ 0;  0;  0;  0;  0;  0;  0];
  [ 0;  0;  0;  0;  0;  0;  0];
  [ 0;  0;  0;  0;  0;  0;  0];
  [ 0;  0;  0;  0;  0;  0;  0];
  [ 0;  0;  0;  0;  0;  0;  0];
  [ 0;  0;  0;  0;  0;  0;  0];
  [ 0;  0;  0;  0;  0;  0;  0];
  [ 0;  0;  0;  0;  0;  0;  0];
  [ 0;  0;  0;  0;  0;  0;  0];
  [ 0;  0;  0;  0;  0;  0;  0];
  [ 0;  0;  0;  0;  0;  0;  0];
  [ 0;  0;  0;  0;  0;  0;  0];
  [ 0;  0;  0;  0;  0;  0;  0];
  [ 0;  0;  0;  0;  0;  0;  0];
  [ 0;  0;  0;  0;  0;  0;  0];
  [ 0;  0;  0;  0;  0;  0;  0];
  [ 0;  0;  0;  0;  0;  0;  0];
  [ 0;  0;  0;  0;  0;  0;  0];
  [ 0;  0;  0;  0;  0;  0;  0];
  [ 0;  0;  0;  0;  0;  0;  0];
  [ 0;  0;  0;  0;  0;  0;  0];
  [ 0;  0;  0;  0;  0;  0;  0];
  [ 0;  0;  0;  0;  0;  0;  0];
  [ 0;  0;  0;  0;  0;  0;  0];
  [ 0;  0;  0;  0;  0;  0;  0];
  [ 0;  0;  0;  0;  0;  0;  0];
  [ 0;  0;  0;  0;  0;  0;  0];
  [ 0;  0;  0;  0;  0;  0;  0];
  [ 0;  0;  0;  0;  0;  0;  0];
  [ 0;  0;  0;  0;  0;  0;  0];
  [ 0;  0;  0;  0;  0;  0;  0];
  [ 0;  0;  0;  0;  0;  0;  0];
  [ 0;  0;  0;  0; 28; 20; 28];
  [ 7;  4;  4;  4;  0;  0;  0];
  [ 0;  0;  0;  4;  4;  4; 28];
  [ 0;  0;  0;  0; 16;  8;  4];
  [ 0;  0;  0; 12; 12;  0;  0];
  [ 0; 31;  1; 31;  1;  2;  4];
  [ 0;  0; 31;  1;  6;  4;  8];
  [ 0;  0;  2;  4; 12; 20;  4];
  [ 0;  0;  4; 31; 17;  1;  6];
  [ 0;  0;  0; 31;  4;  4; 31];
  [ 0;  0;  2; 31;  6; 10; 18];
  [ 0;  0;  8; 31;  9; 10;  8];
  [ 0;  0;  0; 14;  2;  2; 31];
  [ 0;  0; 30;  2; 30;  2; 30];
  [ 0;  0;  0; 21; 21;  1;  6];
  [ 0;  0;  0;  0; 31;  0;  0];
  [31;  1;  5;  6;  4;  4;  8];
  [ 1;  2;  4; 12; 20;  4;  4];
  [ 4; 31; 17; 17;  1;  2;  4];
  [ 0;  0; 31;  4;  4;  4; 31];
  [ 2; 31;  2;  6; 10; 18;  2];
  [ 8; 31;  9;  9;  9;  9; 18];
  [ 4; 31;  4; 31;  4;  4;  4];
  [ 0; 15;  9; 17;  1;  2; 12];
  [ 8; 15; 18;  2;  2;  2;  4];
  [ 0; 31;  1;  1;  1;  1; 31];
  [10; 31; 10; 10;  2;  4;  8];
  [ 0; 24;  1; 25;  1;  2; 28];
  [ 0; 31;  1;  2;  4; 10; 17];
  [ 8; 31;  9; 10;  8;  8;  7];
  [ 0; 17; 17;  9;  1;  2; 12];
  [ 0; 15;  9; 21;  3;  2; 12];
  [ 2; 28;  4; 31;  4;  4;  8];
  [ 0; 21; 21;  1;  1;  2;  4];
  [14;  0; 31;  4;  4;  4;  8];
  [ 8;  8;  8; 12; 10;  8;  8];
  [ 4;  4; 31;  4;  4;  8; 16];
  [ 0; 14;  0;  0;  0;  0; 31];
  [ 0; 31;  1; 10;  4; 10; 16];
  [ 4; 31;  2;  4; 14; 21;  4];
  [ 2;  2;  2;  2;  2;  4;  8];
  [ 0;  4;  2; 17; 17; 17; 17];
  [16; 16; 31; 16; 16; 16; 15];
  [ 0; 31;  1;  1;  1;  2; 12];
  [ 0;  8; 20;  2;  1;  1;  0];
  [ 4; 31;  4;  4; 21; 21;  4];
  [ 0; 31;  1;  1; 10;  4;  2];
  [ 0; 14;  0; 14;  0; 14;  1];
  [ 0;  4;  8; 16; 17; 31;  1];
  [ 0;  1;  1; 10;  4; 10; 16];
  [ 0; 31;  8; 31;  8;  8;  7];
  [ 8;  8; 31;  9; 10;  8;  8];
  [ 0; 14;  2;  2;  2;  2; 31];
  [ 0; 31;  1; 31;  1;  1; 31];
  [14;  0; 31;  1;  1;  2;  4];
  [18; 18; 18; 18;  2;  4;  8];
  [ 0;  4; 20; 20; 21; 21; 22];
  [ 0; 16; 16; 17; 18; 20; 24];
  [ 0; 31; 17; 17; 17; 17; 31];
  [ 0; 31; 17; 17;  1;  2;  4];
  [ 0; 24;  0;  1;  1;  2; 28];
  [ 4; 18;  8;  0;  0;  0;  0];
  [28; 20; 28;  0;  0;  0;  0];
  [ 0;  0;  9; 21; 18; 18; 13];
  [10;  0; 14;  1; 15; 17; 15];
  [ 0; 14; 17; 30; 17; 30; 16];
  [ 0;  0; 14; 16; 12; 17; 14];
  [ 0; 17; 17; 17; 19; 29; 16];
  [ 0;  0; 15; 20; 18; 17; 14];
  [ 0;  6;  9; 17; 17; 30; 16];
  [ 0; 15; 17; 17; 17; 15;  1];
  [ 0;  0;  7;  4;  4; 20;  8];
  [ 2; 26;  2;  0;  0;  0;  0];
  [ 2;  0;  6;  2;  2;  2;  2];
  [ 0; 20;  8; 20;  0;  0;  0];
  [ 4; 14; 20; 21; 14;  4;  0];
  [ 8;  8; 28;  8; 28;  8; 15];
  [14;  0; 22; 25; 17; 17; 17];
  [10;  0; 14; 17; 17; 17; 14];
  [ 0; 22; 25; 17; 17; 30; 16];
  [ 0; 13; 19; 17; 17; 15;  1];
  [14; 17; 31; 17; 17; 14;  0];
  [ 0;  0;  0;  0; 11; 21; 26];
  [ 0; 14; 17; 17; 10; 27;  0];
  [10;  0; 17; 17; 17; 19; 13];
  [31; 16;  8;  4;  8; 16; 31];
  [ 0; 31; 10; 10; 10; 19;  0];
  [31;  0; 17; 10;  4; 10; 17];
  [ 0; 17; 17; 17; 17; 15;  1];
  [ 1; 30;  4; 31;  4;  4;  0];
  [ 0; 31;  8; 15;  9; 17;  0];
  [ 0; 31; 21; 31; 17; 17;  0];
  [ 0;  0;  4;  0; 31;  0;  4];
  [ 0;  0;  0;  0;  0;  0;  0];
  [31; 31; 31; 31; 31; 31; 31]
].

(** *** [HD44780View._update_font] *)

Definition px_size : Z := 2.
Definition px_space : Z := 2.

Definition lcd_bg : Z := qRgb 0 0 20.
Definition lcd_off : Z := qRgb 60 40 20.
Definition lcd_on : Z := qRgb 250 220 20.

(** [(list(c) + [0]*8)[:8]] *)
Definition glyph_rows (c : list Z) : list Z :=
  slice (c ++ replicate 8 0) 0 8.

(** [lcd_off if r_def & (1<<(4-c_idx)) == 0 else lcd_on] *)
Definition dot_colour (r_def c_idx : Z) : Z :=
  if Z.land r_def (Z.shiftl 1 (4 - c_idx)) =? 0 then lcd_off else lcd_on.

Definition dot_rect (r_idx r_def c_idx : Z) : FillRect :=
  {| fr_x := (px_space + px_size) * c_idx + px_space;
     fr_y := (px_space + px_size) * r_idx + px_space;
     fr_w := px_size;
     fr_h := px_size;
     fr_colour := dot_colour r_def c_idx |}.

Definition render_char (c : list Z) : QImage :=
  {| im_width := 5 * (px_size + px_space) + px_space;
     im_height := 8 * (px_size + px_space) + px_space;
     im_fill := lcd_bg;
     im_rects :=
       concat ((fun '(r_idx, r_def) => dot_rect r_idx r_def <$> range 5)
                 <$> enumerate (glyph_rows c)) |}.

(** [self._font = list(render_char(c) for c in CHAR_ROM)] *)
Definition _update_font : list QImage := render_char <$> CHAR_ROM.

(** *** [HD44780View.paintEvent] *)

(** The display object of the machine, as far as the view reads it: which
    object it is, and the contents of its [ddram] when it is read. *)
Record HD44780 : Type := mkHD44780 {
  oid : nat;
  ddram : list Z
}.

Definition paint_row (font : list QImage) (y : Z) (contents : list Z)
    (p : list DrawImage) : result (list DrawImage) :=
  for_each (enumerate contents)
    (fun '(c, v) p =>
       im <~ getitem font v ;;
       Ok (p ++ [mkDrawImage (c * im_width im) y im]))
    p.

(** The calls the painter receives, in order.  An empty font or a missing
    display paints nothing. *)
Definition paintEvent (font : list QImage) (display : option HD44780)
  : result (list DrawImage) :=
  match display with
  | None => Ok []
  | Some d =>
      if len font =? 0 then Ok []
      else
        let p := [] in
        im0 <~ getitem font 0 ;;
        let rh := im_height im0 in
        p <~ paint_row font (0 * rh) (slice (ddram d) 0 20) p ;;
        p <~ paint_row font (1 * rh) (slice (ddram d) 64 84) p ;;
        p <~ paint_row font (2 * rh) (slice (ddram d) 20 40) p ;;
        p <~ paint_row font (3 * rh) (slice (ddram d) 84 104) p ;;
        Ok p
  end.

(** *** [HD44780View]: the [display] property *)

(** The view's attributes, and what Qt keeps on its behalf:
    [subscribed] lists the display objects whose [update] signal is
    connected to [self._display_update], one entry per connection, oldest
    first; [update_requests] counts the calls of [self.update()]. *)
Record HD44780View : Type := mkHD44780View {
  rows : Z;
  cols : Z;
  _display : option HD44780;
  _font : list QImage;
  subscribed : list nat;
  update_requests : nat
}.

(** [HD44780View.__init__] *)
Definition HD44780View_init : HD44780View :=
  {| rows := 4; cols := 20; _display := None; _font := _update_font;
     subscribed := []; update_requests := 0 |}.

(** A statement of a method: the state it leaves and how it ends. *)
Definition stmt : Type := HD44780View -> HD44780View * result unit.

(** [signal.disconnect(slot)] removes every connection of the slot; the
    binding raises when there is none. *)
Definition disconnect_update (d : HD44780) : stmt := fun v =>
  if decide (oid d ∈ subscribed v) then
    ({| rows := rows v; cols := cols v; _display := _display v;
        _font := _font v;
        subscribed := filter (fun o => o ≠ oid d) (subscribed v);
        update_requests := update_requests v |}, Ok tt)
  else (v, Raise RuntimeError).

(** [signal.connect(slot)] adds one connection. *)
Definition connect_update (d : HD44780) : stmt := fun v =>
  ({| rows := rows v; cols := cols v; _display := _display v;
      _font := _font v;
      subscribed := subscribed v ++ [oid d];
      update_requests := update_requests v |}, Ok tt).

(** [if self._display is not None:
       self._display.update.disconnect(self._display_update)] *)
Definition display_setter_1 : stmt := fun v =>
  match _display v with
  | Some old => disconnect_update old v
  | None => (v, Ok tt)
  end.

(** [self._display = d] *)
Definition display_setter_2 (d : option HD44780) : stmt := fun v =>
  ({| rows := rows v; cols := cols v; _display := d; _font := _font v;
      subscribed := subscribed v;
      update_requests := update_requests v |}, Ok tt).

(** [self._display.update.connect(self._display_update)]: [None] has no
    attribute [update]. *)
Definition display_setter_3 : stmt := fun v =>
  match _display v with
  | Some new => connect_update new v
  | None => (v, Raise AttributeError)
  end.

(** [self.update()] *)
Definition display_setter_4 : stmt := fun v =>
  ({| rows := rows v; cols := cols v; _display := _display v;
      _font := _font v; subscribed := subscribed v;
      update_requests := S (update_requests v) |}, Ok tt).

(** Statements in sequence: the state after each statement that ran (the
    raising one included) and the outcome. *)
Fixpoint run (body : list stmt) (v : HD44780View)
  : list HD44780View * result unit :=
  match body with
  | [] => ([], Ok tt)
  | s :: body' =>
      match s v with
      | (v', Ok _) => let '(tr, r) := run body' v' in (v' :: tr, r)
      | (v', Raise e) => ([v'], Raise e)
      end
  end.

Definition display_setter_body (d : option HD44780) : list stmt :=
  [display_setter_1; display_setter_2 d; display_setter_3; display_setter_4].

(** [view.display = d]: the view afterwards and whether it raised. *)
Definition display_setter (d : option HD44780) (v : HD44780View)
  : HD44780View * result unit :=
  let '(tr, r) := run (display_setter_body d) v in (List.last tr v, r).

(** The states the view goes through during [view.display = d]. *)
Definition display_setter_trace (d : option HD44780) (v : HD44780View)
  : list HD44780View :=
  fst (run (display_setter_body d) v).

(** The views a program can hold: a fresh one, then any assignments to
    [display], raising or not. *)
Inductive reachable : HD44780View -> Prop :=
| reachable_init : reachable HD44780View_init
| reachable_set d v :
    reachable v -> reachable (fst (display_setter d v)).

(** [HD44780View.paintEvent] on the view's own attributes. *)
Definition view_paintEvent (v : HD44780View) : result (list DrawImage) :=
  paintEvent (_font v) (_display v).

(** [HD44780View.sizeHint]: width and height. *)
Definition sizeHint (v : HD44780View) : result (Z * Z) :=
  wh <~ (if 0 <? len (_font v) then
           im0 <~ getitem (_font v) 0 ;;
           Ok (im_width im0, im_height im0)
         else Ok (1, 1)) ;;
  Ok (cols v * fst wh, rows v * snd wh).

(** *** [ScreenView] *)

(** The [pyte] screen as the view reads it: its size (lines, columns), its
    buffer of lines of characters, of which only [data] is used, and its
    cursor. *)
Record Char : Type := mkChar { data : list Z }.

Record Screen : Type := mkScreen {
  size : Z * Z;
  buffer : list (list Char);
  cursor_x : Z;
  cursor_y : Z
}.

(** What the view gets from Qt when it paints: the frame width and
    rectangle, the font metrics ([width('X')], [lineSpacing()],
    [ascent()]), whether it has the focus, and the pen a new painter
    starts with. *)
Record Widget : Type := mkWidget {
  frameWidth : Z;
  frame_x : Z; frame_y : Z; frame_w : Z; frame_h : Z;
  char_width : Z;
  lineSpacing : Z;
  ascent : Z;
  hasFocus : bool;
  initial_pen : Z
}.







(** The view: its screen, the size it last saw, and the numbers of
    [update()] and [updateGeometry()] calls made so far. *)
Record ScreenView : Type := mkScreenView {
  _screen : option Screen;
  _cached_screen_size : option (Z * Z);
  sv_updates : nat;
  sv_geometry_updates : nat
}.


(** The [screen] setter: [_adjust_to_screen] recomputes the geometry. *)
Definition screen_setter (s : option Screen) (v : ScreenView) : ScreenView :=
  {| _screen := s; _cached_screen_size := _cached_screen_size v;
     sv_updates := sv_updates v;
     sv_geometry_updates := S (sv_geometry_updates v) |}.

(** [contents_changed]: [None] has no attribute [size]. *)
Definition contents_changed (v : ScreenView) : ScreenView * result unit :=
  let v1 :=
    {| _screen := _screen v; _cached_screen_size := _cached_screen_size v;
       sv_updates := S (sv_updates v);
       sv_geometry_updates := sv_geometry_updates v |} in
  match _screen v1 with
  | None => (v1, Raise AttributeError)
  | Some scr =>
      if decide (_cached_screen_size v1 = Some (size scr)) then (v1, Ok tt)
      else
        ({| _screen := _screen v1; _cached_screen_size := Some (size scr);
            sv_updates := sv_updates v1;
            sv_geometry_updates := S (sv_geometry_updates v1) |}, Ok tt)
  end.



(** [ScreenView.minimumSize], which [sizeHint] returns too. *)
Definition minimumSize (w : Widget) (v : ScreenView) : Z * Z :=
  match _screen v with
  | None => (0, 0)
  | Some scr =>
      let '(h, wd) := size scr in
      (2 * frameWidth w + wd * char_width w,
       2 * frameWidth w + h * lineSpacing w)
  end.

(** *** [TerminalView] *)

(** A Python 3 [str] is a sequence of code points; [ord] of a
    one-character string is that code point. *)
Definition ustr : Type := list Z.
Definition ord (c : Z) : Z := c.

Section TerminalView.

(** The terminal-emulation engine ([pyte.ByteStream] attached to a
    [pyte.DiffScreen]) is not code of this module: its state and its
    [feed] are left open. *)
Variable Stream : Type.
Variable feed : Stream -> list Z -> Stream.

(** [_input_buffer] holds the bytes written since the buffer was last
    emptied.  [fed] records the argument of every [self.stream.feed]
    call, [transmitted] every [transmitByte.emit], and [redraws] counts
    [contents_changed()]. *)
Record TerminalView : Type := mkTerminalView {
  stream : Stream;
  _input_buffer : list Z;
  fed : list (list Z);
  transmitted : list Z;
  redraws : nat
}.

Definition TerminalView_init (s0 : Stream) : TerminalView :=
  {| stream := s0; _input_buffer := []; fed := [];
     transmitted := []; redraws := 0 |}.

(** [receiveByte]: [putChar] appends at the write position, the end. *)
Definition receiveByte (b : Z) (t : TerminalView) : TerminalView :=
  {| stream := stream t;
     _input_buffer := _input_buffer t ++ [b];
     fed := fed t; transmitted := transmitted t; redraws := redraws t |}.

(** [_have_input] *)
Definition _have_input (t : TerminalView) : TerminalView :=
  let bs := _input_buffer t in
  {| stream := feed (stream t) bs;
     _input_buffer := [];
     fed := fed t ++ [bs];
     transmitted := transmitted t;
     redraws := S (redraws t) |}.

(** [keyReleaseEvent] on an event whose [text()] is [txt]; an empty
    text goes to [QWidget.keyReleaseEvent], which emits nothing. *)
Definition keyReleaseEvent (txt : ustr) (t : TerminalView)
  : TerminalView :=
  match txt with
  | [] => t
  | _ =>
      fold_left
        (fun t c =>
           {| stream := stream t; _input_buffer := _input_buffer t;
              fed := fed t;
              transmitted := transmitted t ++ [ord c];
              redraws := redraws t |})
        txt t
  end.

(** What can happen to a terminal view, and a run of such events. *)
Inductive event : Type :=
| EvReceiveByte (b : Z)
| EvHaveInput
| EvKeyRelease (txt : ustr).

Definition step (t : TerminalView) (e : event) : TerminalView :=
  match e with
  | EvReceiveByte b => receiveByte b t
  | EvHaveInput => _have_input t
  | EvKeyRelease txt => keyReleaseEvent txt t
  end.

Definition steps (es : list event) (t : TerminalView) : TerminalView :=
  fold_left step es t.

(** The bytes a run of events receives, in order. *)
Definition received (es : list event) : list Z :=
  concat ((fun e => match e with EvReceiveByte b => [b] | _ => [] end)
            <$> es).

End TerminalView.

Arguments stream {Stream} t.
Arguments _input_buffer {Stream} t.
Arguments fed {Stream} t.
Arguments transmitted {Stream} t.
Arguments redraws {Stream} t.
Arguments TerminalView_init {Stream} s0.
Arguments receiveByte {Stream} b t.
Arguments _have_input {Stream} feed t.
Arguments keyReleaseEvent {Stream} txt t.
Arguments steps {Stream} feed es t.

End Display.

(** ** [burisim/__init__.py]: the memory page view *)

Module Burisim.

Local Open Scope string_scope.
Local Open Scope Z_scope.

(** *** String formatting *)

Definition hex_digit (d : Z) : ascii :=
  match String.get (Z.to_nat d) "0123456789ABCDEF" with
  | Some a => a
  | None => "?"%char
  end.

(** The digits of [n >= 0] in base 16, most significant first, in front
    of [acc]; [fuel] bounds the number of digits. *)
Fixpoint hex_digits (fuel : nat) (n : Z) (acc : string) : string :=
  match fuel with
  | O => acc
  | S fuel' =>
      let acc' := String (hex_digit (n mod 16)) acc in
      if n / 16 =? 0 then acc' else hex_digits fuel' (n / 16) acc'
  end.

Fixpoint zeros (k : nat) : string :=
  match k with
  | O => ""
  | S k' => String "0" (zeros k')
  end.

Fixpoint spaces (k : nat) : string :=
  match k with
  | O => ""
  | S k' => String " " (spaces k')
  end.

(** ['{0:0wX}'.format(n)]: upper-case hexadecimal, zero-filled after the
    sign up to [w] characters, never cut. *)
Definition format_0X (w : nat) (n : Z) : string :=
  let sign := if n <? 0 then "-" else "" in
  let digits := hex_digits (S (Z.to_nat (Z.log2 (Z.abs n)))) (Z.abs n) "" in
  sign ++ zeros (w - String.length sign - String.length digits) ++ digits.

(** ['{0:w}'.format(s)] for a string: padded with spaces on the right up
    to [w] characters, never cut. *)
Definition format_str (w : nat) (s : string) : string :=
  s ++ spaces (w - String.length s).

(** [chr(b)] for the values the view passes to it, [32 <= b < 127]. *)
Definition chr (b : Z) : ascii := ascii_of_N (Z.to_N b).

(** [cgi.escape(s)] *)
Fixpoint cgi_escape (s : string) : string :=
  match s with
  | EmptyString => ""
  | String a s' =>
      (if Ascii.eqb a "&" then "&amp;"
       else if Ascii.eqb a "<" then "&lt;"
       else if Ascii.eqb a ">" then "&gt;"
       else String a "") ++ cgi_escape s'
  end.

(** *** [MemoryView] *)

(** The view's attributes: the machine's memory when a simulator is
    attached, the page, and the document last given to the text edit. *)
Record MemoryView : Type := mkMemoryView {
  simulator : option (list Z);
  _page : Z;
  _te : string
}.

Definition page (v : MemoryView) : Z := _page v.

(** The generator [mem_contents]: its sixteen items.  The
    [raise StopIteration()] after the loop ends the iteration, as it does on
    the interpreters the module is written for. *)
Definition mem_contents (m : list Z) (pg : Z) : list (Z * list Z) :=
  let start := 256 * pg in
  (fun line_offset =>
     (line_offset,
      slice m (start + line_offset) (start + line_offset + 16)))
    <$> range3 0 256 16.

Definition render_line (pg : Z) (offset : Z) (contents : list Z) : string :=
  let hexrepr :=
    String.concat "  "
      ((fun o =>
          String.concat " " (format_0X 2 <$> slice contents o (o + 8)))
         <$> range3 0 (len contents) 8) in
  let asciirepr :=
    String.concat ""
      ((fun b =>
          if (32 <=? b) && (b <? 127) then String (chr b) "" else ".")
         <$> contents) in
  format_0X 4 (pg * 256 + offset) ++ "  " ++ format_str 48 hexrepr
    ++ "  |" ++ format_str 16 asciirepr ++ "|".

Definition newline : string := String (ascii_of_nat 10) "".

(** The lines of the dump under the column header. *)
Definition dump_lines (m : list Z) (pg : Z) : list string :=
  (fun '(o, c) => render_line pg o c) <$> mem_contents m pg.

Definition dump (m : list Z) (pg : Z) : string :=
  String.concat ""
    [ "      " ++ String.concat " " (format_0X 2 <$> range3 0 8 1)
        ++ "  " ++ String.concat " " (format_0X 2 <$> range3 8 16 1)
        ++ newline;
      String.concat newline (dump_lines m pg) ].

Definition _refresh_mem (v : MemoryView) : MemoryView :=
  match simulator v with
  | None => v
  | Some m =>
      {| simulator := simulator v; _page := _page v;
         _te := "<pre><code>" ++ cgi_escape (dump m (_page v))
                  ++ "</code></pre>" |}
  end.

Definition setPage (n : Z) (v : MemoryView) : MemoryView :=
  _refresh_mem {| simulator := simulator v; _page := n; _te := _te v |}.

(** *** [HexSpinBox] *)














(** The spin box: its padding, and the prefix and suffix Qt holds. *)
Record HexSpinBox : Type := mkHexSpinBox {
  _padding : option Z;
  sb_prefix : string;
  sb_suffix : string
}.


Definition padding (sb : HexSpinBox) : option Z := _padding sb.








End Burisim.

(** ** Vocabulary of the statements *)

Module Reading.

Import Display.

(** The ROM entry of a byte value, and the image the font holds for it. *)
Definition rom_entry (v : Z) : list Z :=
  default [] (CHAR_ROM !! Z.to_nat v).

Definition glyph_image (v : Z) : QImage := render_char (rom_entry v).

(** Where each of the four rows starts in the display's memory. *)
Definition row_start (r : nat) : nat := nth r [0; 64; 20; 84]%nat 0%nat.

(** The call that paints byte [v] in column [c] of the row at height [y]. *)
Definition cell (y : Z) (c : nat) (v : Z) : DrawImage :=
  mkDrawImage (Z.of_nat c * 22) y (glyph_image v).

Definition is_byte (v : Z) : Prop := 0 <= v < 256.

(** The byte values whose ROM entry is blank. *)
Definition blank_code (v : Z) : bool :=
  (v <=? 32) || ((128 <=? v) && (v <=? 160)) || (v =? 254).

(** What is checked of the ROM entry of [v]: seven rows, each a five-bit
    pattern, all of them zero exactly for the blank codes. *)
Definition rom_check (v : Z) : bool :=
  match CHAR_ROM !! Z.to_nat v with
  | Some c =>
      (length c =? 7)%nat
      && forallb (fun r => (0 <=? r) && (r <? 32)) c
      && Bool.eqb (forallb (Z.eqb 0) c) (blank_code v)
  | None => false
  end.

(** An eighty-byte buffer, the nominal size of a 4 x 20 display. *)
Definition short_display : HD44780 := mkHD44780 0 (replicate 80 65).

(** A buffer that reaches offset 104, holding 0, 1, 2, ... *)
Definition full_display : HD44780 := mkHD44780 0 (range 104).

(** Between two assignments the view is subscribed to its display and to
    nothing else. *)
Definition subscribed_to_display (v : HD44780View) : Prop :=
  subscribed v = match _display v with
                 | Some d => [oid d]
                 | None => []
                 end.

(** The view with another display and other subscriptions. *)
Definition with_display (v : HD44780View) (d : option HD44780)
    (subs : list nat) : HD44780View :=
  {| rows := rows v; cols := cols v; _display := d; _font := _font v;
     subscribed := subs; update_requests := update_requests v |}.

Definition other_display : HD44780 := mkHD44780 1 (range 104).

(** The buffer of [full_display] with other bytes in the slots 40 to 63
    and sixteen more bytes after offset 104. *)
Definition padded_display : HD44780 :=
  mkHD44780 2
    (take 40 (range 104) ++ replicate 24 255 ++ drop 64 (range 104)
       ++ replicate 16 7).

(** A buffer whose slot 70 holds a value no byte can have. *)
Definition broken_display : HD44780 :=
  mkHD44780 3 (replicate 70 65 ++ [300] ++ replicate 33 65).

(** A painted glyph lies inside a widget of the given size. *)
Definition inside (W H : Z) (op : DrawImage) : Prop :=
  0 <= di_x op /\ di_x op + im_width (di_image op) <= W /\
  0 <= di_y op /\ di_y op + im_height (di_image op) <= H.

(** *** The screen view *)

(** The attached screen is seen in state [scr]: the view holds the same
    object, whose contents the terminal engine changes. *)
Definition observe (scr : Screen) (v : ScreenView) : ScreenView :=
  {| _screen := Some scr; _cached_screen_size := _cached_screen_size v;
     sv_updates := sv_updates v;
     sv_geometry_updates := sv_geometry_updates v |}.

(** [contents_changed] called once for each state of the screen. *)
Fixpoint observe_all (scrs : list Screen) (v : ScreenView)
  : ScreenView * result unit :=
  match scrs with
  | [] => (v, Ok tt)
  | scr :: scrs' =>
      match contents_changed (observe scr v) with
      | (v', Ok _) => observe_all scrs' v'
      | (v', Raise e) => (v', Raise e)
      end
  end.

(** How often a size differs from the one before it, starting from
    [prev]. *)
Fixpoint size_changes (prev : option (Z * Z)) (sizes : list (Z * Z)) : nat :=
  match sizes with
  | [] => 0
  | sz :: sizes' =>
      ((if decide (prev = Some sz) then 0 else 1)
       + size_changes (Some sz) sizes')%nat
  end.




(** Several [receiveByte] calls in a row. *)
Definition receive_all {Stream} (bs : list Z) (t : TerminalView Stream)
  : TerminalView Stream :=
  fold_left (fun t b => receiveByte b t) bs t.

(** An engine that only remembers what it was fed. *)
Definition log_feed (s bs : list Z) : list Z := s ++ bs.

Definition fresh_terminal : TerminalView (list Z) := TerminalView_init [].

(** The code points a run of events types, in order, and the number of
    times it drains the queue. *)
Definition typed (es : list event) : list Z :=
  concat ((fun e => match e with EvKeyRelease txt => txt | _ => [] end)
            <$> es).

Fixpoint drains (es : list event) : nat :=
  match es with
  | [] => 0
  | EvHaveInput :: es' => S (drains es')
  | _ :: es' => drains es'
  end.

(** Typing "ls" while the machine prints a prompt. *)
Definition prompt_run : list event :=
  [EvReceiveByte 36; EvKeyRelease [108]; EvHaveInput; EvReceiveByte 32;
   EvKeyRelease []; EvKeyRelease [115; 10]; EvHaveInput; EvHaveInput].

(** *** A line of the memory dump, as it is described *)

Section DumpLine.

Import Burisim.
Local Open Scope string_scope.
Local Open Scope Z_scope.

(** A byte as two hexadecimal digits, an offset as four. *)
Definition hex_pair (b : Z) : string :=
  String (hex_digit (b / 16)) (String (hex_digit (b mod 16)) "").

Definition hex_quad (n : Z) : string :=
  String (hex_digit (n / 4096))
    (String (hex_digit (n / 256 mod 16))
       (String (hex_digit (n / 16 mod 16))
          (String (hex_digit (n mod 16)) ""))).

(** The gloss of a byte: itself when printable, a dot when below 32 or
    from 127 on. *)
Definition gloss_char (b : Z) : ascii :=
  if (b <? 32) || (127 <=? b) then "."%char else chr b.

Fixpoint gloss (bs : list Z) : string :=
  match bs with
  | [] => ""
  | b :: bs' => String (gloss_char b) (gloss bs')
  end.

(** Offset, two spaces, eight pairs, two spaces, eight pairs, two spaces,
    the gloss between bars. *)
Definition described_line (n : Z) (bs : list Z) : string :=
  hex_quad n ++ "  "
    ++ String.concat " " (hex_pair <$> take 8 bs) ++ "  "
    ++ String.concat " " (hex_pair <$> drop 8 bs) ++ "  "
    ++ "|" ++ gloss bs ++ "|".

(** Checks that the formatter agrees with the digits above. *)
Definition pair_check (b : Z) : bool :=
  String.eqb (format_0X 2 b) (hex_pair b).

Definition quad_check (n : Z) : bool :=
  String.eqb (format_0X 4 n) (hex_quad n).

(** The same for the 256 offsets of page [hi]. *)
Definition quad_check_page (hi : Z) : bool :=
  forallb (fun lo => quad_check (256 * hi + lo)) (range 256).

(** A kilobyte of memory whose bytes 512 to 527 are 0, 1, ..., 15, and a
    memory view of it on page 0. *)
Definition memory_1k : list Z :=
  replicate 512 0 ++ range 16 ++ replicate 496 65.

Definition view_1k : MemoryView :=
  {| simulator := Some memory_1k; _page := 0; _te := "" |}.

(** A test that holds of every character of a string. *)
Fixpoint all_chars (p : ascii -> bool) (s : string) : bool :=
  match s with
  | EmptyString => true
  | String a s' => p a && all_chars p s'
  end.

(** Printable ASCII: from the space to the tilde. *)
Definition printable (a : ascii) : bool :=
  ((32 <=? nat_of_ascii a) && (nat_of_ascii a <? 127))%nat.

Definition not_angle (a : ascii) : bool :=
  negb (Ascii.eqb a "<") && negb (Ascii.eqb a ">").

(** The hexadecimal column of a line, with [f] printing a byte. *)
Definition hexrepr_with (f : Z -> string) (contents : list Z) : string :=
  String.concat "  "
    ((fun o => String.concat " " (f <$> slice contents o (o + 8)))
       <$> range3 0 (len contents) 8).



(** How many line breaks a string holds. *)
Fixpoint line_breaks (t : string) : nat :=
  match t with
  | EmptyString => 0
  | String a t' =>
      ((if Ascii.eqb a (ascii_of_nat 10) then 1 else 0) + line_breaks t')%nat
  end.

(** A memory that stops in the middle of page 1: 300 bytes. *)
Definition memory_300 : list Z := replicate 300 60.

End DumpLine.

End Reading.

(** ** Facts about the Python fragment *)

Module PyFacts.

Lemma len_nonneg {A} (l : list A) : 0 <= len l.
Proof. unfold len. lia. Qed.

(** A slice with bounds [0 <= a <= b] is [b - a] items after the first
    [a], as many as exist. *)
Lemma slice_take_drop {A} (l : list A) (a b : nat) :
  (a <= b)%nat ->
  slice l (Z.of_nat a) (Z.of_nat b) = take (b - a) (drop a l).
Proof.
  intros Hab. unfold slice, clamp, len.
  destruct (Z.ltb_spec (Z.of_nat a) 0); [lia|].
  destruct (Z.ltb_spec (Z.of_nat b) 0); [lia|].
  destruct (decide (a <= length l)%nat) as [Ha|Ha].
  - rewrite (Z.min_l (Z.of_nat a)) by lia. rewrite Nat2Z.id.
    destruct (decide (b <= length l)%nat) as [Hb|Hb].
    + rewrite Z.min_l by lia. f_equal. lia.
    + rewrite Z.min_r by lia.
      rewrite !take_ge; [done | | ]; rewrite length_drop; lia.
  - rewrite !Z.min_r by lia. rewrite Z.sub_diag. simpl.
    rewrite Nat2Z.id, take_0, (drop_ge l a) by lia. by rewrite take_nil.
Qed.

Lemma slice_length {A} (l : list A) (a b : nat) :
  (a <= b)%nat ->
  length (slice l (Z.of_nat a) (Z.of_nat b))
  = Nat.min (b - a) (length l - a).
Proof.
  intros Hab. rewrite slice_take_drop by done.
  by rewrite length_take, length_drop.
Qed.

(** Item [i] of [l[a:b]] is item [a + i] of [l]. *)
Lemma slice_lookup {A} (l : list A) (a b i : nat) :
  (a <= b)%nat -> (i < b - a)%nat ->
  slice l (Z.of_nat a) (Z.of_nat b) !! i = l !! (a + i)%nat.
Proof.
  intros Hab Hi. rewrite slice_take_drop by done.
  rewrite lookup_take_lt by done. apply lookup_drop.
Qed.

(** Indexing inside the bounds is a plain look-up. *)
Lemma getitem_inrange {A} (l : list A) (i : Z) :
  0 <= i < len l -> getitem l i = match l !! Z.to_nat i with
                                  | Some x => Ok x
                                  | None => Raise IndexError
                                  end.
Proof.
  intros Hi. unfold getitem.
  destruct (Z.ltb_spec i 0); [lia|].
  destruct (Z.leb_spec 0 i); [|lia].
  destruct (Z.ltb_spec i (len l)); [|lia]. done.
Qed.

Lemma getitem_Some {A} (l : list A) (i : Z) :
  0 <= i < len l -> exists x, l !! Z.to_nat i = Some x /\ getitem l i = Ok x.
Proof.
  intros Hi. rewrite getitem_inrange by done.
  destruct (l !! Z.to_nat i) as [x|] eqn:E; [eauto|].
  apply lookup_ge_None in E. unfold len in Hi. lia.
Qed.

(** A check that holds on [range n] holds on every integer below [n]. *)
Lemma forallb_range (f : Z -> bool) (n : nat) :
  forallb f (range n) = true ->
  forall v, 0 <= v < Z.of_nat n -> f v = true.
Proof.
  intros H v Hv. rewrite forallb_forall in H. apply H.
  unfold range. apply in_map_iff. exists (Z.to_nat v). split; [lia|].
  apply in_seq. lia.
Qed.

End PyFacts.

(** ** The LCD view *)

Module LCD.

Import Display Reading PyFacts.

Lemma CHAR_ROM_length : length CHAR_ROM = 256%nat.
Proof. reflexivity. Qed.

Lemma font_length : len _update_font = 256.
Proof. unfold len, _update_font. by rewrite length_fmap, CHAR_ROM_length. Qed.

Lemma rom_entry_lookup (v : Z) :
  is_byte v -> CHAR_ROM !! Z.to_nat v = Some (rom_entry v).
Proof.
  intros Hv. unfold rom_entry.
  destruct (CHAR_ROM !! Z.to_nat v) eqn:E; [done|].
  apply lookup_ge_None in E. rewrite CHAR_ROM_length in E.
  unfold is_byte in Hv. lia.
Qed.

Lemma font_getitem (v : Z) :
  is_byte v -> getitem _update_font v = Ok (glyph_image v).
Proof.
  intros Hv. rewrite getitem_inrange by (rewrite font_length; exact Hv).
  unfold _update_font. rewrite list_lookup_fmap, rom_entry_lookup by done.
  done.
Qed.

Lemma render_char_size (c : list Z) :
  im_width (render_char c) = 22 /\ im_height (render_char c) = 34.
Proof. split; reflexivity. Qed.

(** One row: every byte of the contents is painted, left to right, one
    glyph width apart. *)
Lemma paint_row_from (y : Z) (contents : list Z) (k : nat)
    (p : list DrawImage) :
  Forall is_byte contents ->
  for_each (imap (fun i x => (Z.of_nat (k + i), x)) contents)
    (fun '(c, v) p =>
       im <~ getitem _update_font v ;;
       Ok (p ++ [mkDrawImage (c * im_width im) y im]))
    p
  = Ok (p ++ imap (fun i v => cell y (k + i) v) contents).
Proof.
  intros H. revert k p.
  induction H as [|v l Hv Hl IH]; intros k p.
  - simpl. by rewrite app_nil_r.
  - rewrite !imap_cons. cbn [for_each].
    rewrite font_getitem by done. cbn [bind].
    rewrite (imap_ext _ (fun i x => (Z.of_nat (S k + i), x)) l).
    2:{ intros i x _. unfold compose. f_equal. lia. }
    rewrite IH, <- app_assoc. cbn [app]. f_equal. f_equal.
    rewrite Nat.add_0_r. f_equal.
    apply imap_ext. intros i x _. unfold compose, cell. f_equal. lia.
Qed.

Lemma paint_row_ok (y : Z) (contents : list Z) (p : list DrawImage) :
  Forall is_byte contents ->
  paint_row _update_font y contents p = Ok (p ++ imap (cell y) contents).
Proof.
  intros H. unfold paint_row, enumerate.
  exact (paint_row_from y contents 0 p H).
Qed.

Lemma slice_bytes (l : list Z) (a b : nat) :
  (a <= b)%nat -> Forall is_byte l ->
  Forall is_byte (slice l (Z.of_nat a) (Z.of_nat b)).
Proof.
  intros Hab H. rewrite slice_take_drop by done.
  by apply Forall_take, Forall_drop.
Qed.

(** What [paintEvent] paints for any buffer of bytes, whatever its
    length: the four slices, one row height apart. *)
Lemma paintEvent_rows (d : HD44780) :
  Forall is_byte (ddram d) ->
  paintEvent _update_font (Some d)
  = Ok (imap (cell 0) (slice (ddram d) 0 20)
          ++ imap (cell 34) (slice (ddram d) 64 84)
          ++ imap (cell 68) (slice (ddram d) 20 40)
          ++ imap (cell 102) (slice (ddram d) 84 104)).
Proof.
  intros H. unfold paintEvent. rewrite font_length.
  change (256 =? 0) with false. cbv iota.
  rewrite (font_getitem 0) by (unfold is_byte; lia). cbn [bind].
  pose proof (slice_bytes (ddram d) 0 20 ltac:(lia) H) as H0.
  pose proof (slice_bytes (ddram d) 64 84 ltac:(lia) H) as H1.
  pose proof (slice_bytes (ddram d) 20 40 ltac:(lia) H) as H2.
  pose proof (slice_bytes (ddram d) 84 104 ltac:(lia) H) as H3.
  change (Z.of_nat 0) with 0 in *. change (Z.of_nat 20) with 20 in *.
  change (Z.of_nat 64) with 64 in *. change (Z.of_nat 84) with 84 in *.
  change (Z.of_nat 40) with 40 in *. change (Z.of_nat 104) with 104 in *.
  rewrite paint_row_ok by done. cbn [bind].
  rewrite paint_row_ok by done. cbn [bind].
  rewrite paint_row_ok by done. cbn [bind].
  rewrite paint_row_ok by done. cbn [bind].
  change (im_height (glyph_image 0)) with 34.
  cbn [app]. by rewrite <- !app_assoc.
Qed.

Lemma row_lookup (l : list Z) (y : Z) (a b c : nat) :
  (a <= b)%nat -> (c < b - a)%nat -> (b <= length l)%nat ->
  exists v, l !! (a + c)%nat = Some v /\
    imap (cell y) (slice l (Z.of_nat a) (Z.of_nat b)) !! c
    = Some (cell y c v).
Proof.
  intros Hab Hc Hb.
  destruct (lookup_lt_is_Some_2 l (a + c)%nat ltac:(lia)) as [v Hv].
  exists v. split; [done|].
  by rewrite list_lookup_imap, slice_lookup, Hv.
Qed.

(** Literal slice bounds, read as naturals. *)
Ltac slice_nat :=
  repeat match goal with
  | |- context [slice ?l ?a ?b] =>
      lazymatch a with Z.of_nat _ => fail | _ => idtac end;
      let a' := eval compute in (Z.to_nat a) in
      let b' := eval compute in (Z.to_nat b) in
      change (slice l a b) with (slice l (Z.of_nat a') (Z.of_nat b'))
  end.

(** Four rows of twenty cells laid end to end. *)
Lemma lookup_rows {A} (l0 l1 l2 l3 : list A) (c : nat) :
  length l0 = 20%nat -> length l1 = 20%nat -> length l2 = 20%nat ->
  (c < 20)%nat ->
  (l0 ++ l1 ++ l2 ++ l3) !! c = l0 !! c /\
  (l0 ++ l1 ++ l2 ++ l3) !! (20 + c)%nat = l1 !! c /\
  (l0 ++ l1 ++ l2 ++ l3) !! (40 + c)%nat = l2 !! c /\
  (l0 ++ l1 ++ l2 ++ l3) !! (60 + c)%nat = l3 !! c.
Proof.
  intros E0 E1 E2 Hc. repeat split.
  - apply lookup_app_l. lia.
  - rewrite lookup_app_r, E0 by lia.
    replace (20 + c - 20)%nat with c by lia. apply lookup_app_l. lia.
  - rewrite lookup_app_r, E0 by lia.
    rewrite lookup_app_r, E1 by lia.
    replace (40 + c - 20 - 20)%nat with c by lia. apply lookup_app_l. lia.
  - rewrite lookup_app_r, E0 by lia.
    rewrite lookup_app_r, E1 by lia.
    rewrite lookup_app_r, E2 by lia.
    f_equal. lia.
Qed.

(** C1.  For a buffer [B] of at least 104 bytes the view paints eighty
    glyphs, twenty per row, and the glyph in column [c] of row 0, 1, 2, 3
    is that of [B[c]], [B[64 + c]], [B[20 + c]], [B[84 + c]]: the rows
    are [B[0:20]], [B[64:84]], [B[20:40]] and [B[84:104]], not a
    row-major cut of the buffer. *)
Theorem paintEvent_row_addressing (d : HD44780) :
  104 <= len (ddram d) ->
  Forall is_byte (ddram d) ->
  exists ops,
    paintEvent _update_font (Some d) = Ok ops /\
    length ops = 80%nat /\
    forall r c : nat, (r < 4)%nat -> (c < 20)%nat ->
      exists v,
        ddram d !! (row_start r + c)%nat = Some v /\
        ops !! (20 * r + c)%nat
        = Some (mkDrawImage (22 * Z.of_nat c) (34 * Z.of_nat r)
                  (glyph_image v)).
Proof.
  intros Hlen Hb. unfold len in Hlen.
  eexists. split; [by apply paintEvent_rows|].
  set (B := ddram d) in *.
  assert (L0 : length (imap (cell 0) (slice B 0 20)) = 20%nat)
    by (rewrite length_imap; slice_nat; rewrite slice_length; lia).
  assert (L1 : length (imap (cell 34) (slice B 64 84)) = 20%nat)
    by (rewrite length_imap; slice_nat; rewrite slice_length; lia).
  assert (L2 : length (imap (cell 68) (slice B 20 40)) = 20%nat)
    by (rewrite length_imap; slice_nat; rewrite slice_length; lia).
  assert (L3 : length (imap (cell 102) (slice B 84 104)) = 20%nat)
    by (rewrite length_imap; slice_nat; rewrite slice_length; lia).
  split; [rewrite !length_app, L0, L1, L2, L3; lia|].
  intros r c Hr Hc.
  destruct (lookup_rows _ _ _ (imap (cell 102) (slice B 84 104)) c
              L0 L1 L2 Hc) as (R0 & R1 & R2 & R3).
  assert (Hcell : forall y v, cell y c v
            = mkDrawImage (22 * Z.of_nat c) y (glyph_image v))
    by (intros; unfold cell; f_equal; lia).
  destruct r as [|[|[|[|r]]]]; [| | | |lia]; cbn [row_start nth].
  - destruct (row_lookup B 0 0 20 c) as (v & Hv & Hop); [lia..|].
    exists v. split; [done|].
    rewrite Nat.mul_0_r, Nat.add_0_l, R0, <- Hcell. exact Hop.
  - destruct (row_lookup B 34 64 84 c) as (v & Hv & Hop); [lia..|].
    exists v. split; [done|].
    change (20 * 1 + c)%nat with (20 + c)%nat.
    rewrite R1, <- Hcell. exact Hop.
  - destruct (row_lookup B 68 20 40 c) as (v & Hv & Hop); [lia..|].
    exists v. split; [done|].
    change (20 * 2 + c)%nat with (40 + c)%nat.
    rewrite R2, <- Hcell. exact Hop.
  - destruct (row_lookup B 102 84 104 c) as (v & Hv & Hop); [lia..|].
    exists v. split; [done|].
    change (20 * 3 + c)%nat with (60 + c)%nat.
    rewrite R3, <- Hcell. exact Hop.
Qed.

(** C2, as the code has it.  A buffer shorter than 104 bytes is painted
    without any error: each row holds the bytes its slice still finds, so
    row 3 is whatever lies from offset 84 on, and fewer than eighty glyphs
    appear. *)
Theorem paintEvent_short_buffer (d : HD44780) :
  len (ddram d) < 104 ->
  Forall is_byte (ddram d) ->
  exists ops,
    paintEvent _update_font (Some d) = Ok ops /\
    ops = imap (cell 0) (take 20 (ddram d))
            ++ imap (cell 34) (take 20 (drop 64 (ddram d)))
            ++ imap (cell 68) (take 20 (drop 20 (ddram d)))
            ++ imap (cell 102) (drop 84 (ddram d)) /\
    (length ops < 80)%nat.
Proof.
  intros Hlen Hb. unfold len in Hlen.
  eexists. split; [by apply paintEvent_rows|].
  slice_nat. rewrite !slice_take_drop by lia. rewrite drop_0.
  change (20 - 0)%nat with 20%nat. change (84 - 64)%nat with 20%nat.
  change (40 - 20)%nat with 20%nat. change (104 - 84)%nat with 20%nat.
  rewrite (take_ge (drop 84 (ddram d))) by (rewrite length_drop; lia).
  split; [done|].
  rewrite !length_app, !length_imap, !length_take, !length_drop. lia.
Qed.

Lemma paintEvent_short_buffer_witness :
  exists ops,
    paintEvent _update_font (Some short_display) = Ok ops /\
    ops = imap (cell 0) (take 20 (ddram short_display))
            ++ imap (cell 34) (take 20 (drop 64 (ddram short_display)))
            ++ imap (cell 68) (take 20 (drop 20 (ddram short_display)))
            ++ imap (cell 102) (drop 84 (ddram short_display)) /\
    (length ops < 80)%nat.
Proof.
  apply (paintEvent_short_buffer short_display).
  - vm_compute. reflexivity.
  - apply Forall_replicate. unfold is_byte. lia.
Defined.

(** C2, the claim at an eighty-byte buffer: nothing is raised, and 56
    glyphs are painted (20, 16, 20 and none). *)
Lemma paintEvent_short_buffer_counterexample :
  (forall e, paintEvent _update_font (Some short_display) <> Raise e) /\
  exists ops,
    paintEvent _update_font (Some short_display) = Ok ops /\
    length ops = 56%nat.
Proof.
  assert (H : Forall is_byte (ddram short_display)).
  { apply Forall_replicate. unfold is_byte. lia. }
  rewrite (paintEvent_rows short_display H). split; [done|].
  eexists. split; [done|].
  rewrite !length_app, !length_imap. reflexivity.
Qed.

Lemma paintEvent_row_addressing_witness :
  exists ops,
    paintEvent _update_font (Some full_display) = Ok ops /\
    length ops = 80%nat /\
    forall r c : nat, (r < 4)%nat -> (c < 20)%nat ->
      exists v,
        ddram full_display !! (row_start r + c)%nat = Some v /\
        ops !! (20 * r + c)%nat
        = Some (mkDrawImage (22 * Z.of_nat c) (34 * Z.of_nat r)
                  (glyph_image v)).
Proof.
  apply (paintEvent_row_addressing full_display).
  - vm_compute. discriminate.
  - apply Forall_forall. intros v Hv. apply list_elem_of_In in Hv.
    unfold full_display, ddram, range in Hv.
    apply in_map_iff in Hv. destruct Hv as (n & <- & Hn).
    apply in_seq in Hn. unfold is_byte. lia.
Defined.

(** *** The font *)

Lemma rom_check_all : forallb rom_check (range 256) = true.
Proof. vm_compute. reflexivity. Qed.

Lemma rom_check_byte (v : Z) :
  is_byte v ->
  length (rom_entry v) = 7%nat /\
  Forall (fun r => 0 <= r < 32) (rom_entry v) /\
  (forallb (Z.eqb 0) (rom_entry v) = blank_code v).
Proof.
  intros Hv. pose proof (forallb_range _ _ rom_check_all v Hv) as H.
  unfold rom_check in H. rewrite rom_entry_lookup in H by done.
  apply andb_prop in H as [H H3]. apply andb_prop in H as [H1 H2].
  split; [by apply Nat.eqb_eq|]. split.
  - apply Forall_forall. intros r Hr. apply list_elem_of_In in Hr.
    rewrite forallb_forall in H2. specialize (H2 r Hr). lia.
  - by apply Bool.eqb_prop.
Qed.

(** Eight rows come out of any definition. *)
Lemma glyph_rows_length (c : list Z) : length (glyph_rows c) = 8%nat.
Proof.
  unfold glyph_rows. slice_nat. rewrite slice_length by lia.
  rewrite length_app, length_replicate. lia.
Qed.

(** A definition of at most eight rows is kept and filled up with zero
    rows. *)
Lemma glyph_rows_pad (c : list Z) :
  (length c <= 8)%nat ->
  glyph_rows c = c ++ replicate (8 - length c) 0.
Proof.
  intros Hc. unfold glyph_rows. slice_nat.
  rewrite slice_take_drop by lia. rewrite drop_0.
  change (8 - 0)%nat with 8%nat.
  rewrite take_app, (take_ge c) by lia.
  by rewrite take_replicate, Nat.min_l by lia.
Qed.

Lemma forallb_zero (l : list Z) :
  forallb (Z.eqb 0) l = true <-> l = replicate (length l) 0.
Proof.
  induction l as [|x l IH]; cbn [forallb length replicate]; [done|].
  rewrite andb_true_iff, IH, Z.eqb_eq. split.
  - intros [Hx Hl]. by rewrite <- Hx, <- Hl.
  - intros [= <- Hl]. split; [done|]. exact Hl.
Qed.

(** C3.  The table has exactly 256 entries, so every byte value has its
    own; the entry of byte [v] decodes to the all-zero glyph exactly when
    [v] is one of the codes the ROM leaves blank (0-32, 128-160 and 254),
    the codes without a pattern included. *)
Theorem CHAR_ROM_one_entry_per_byte (v : Z) :
  is_byte v ->
  len CHAR_ROM = 256 /\
  len _update_font = 256 /\
  exists c,
    getitem CHAR_ROM v = Ok c /\
    (glyph_rows c = replicate 8 0 <-> blank_code v = true).
Proof.
  intros Hv. split; [reflexivity|]. split; [apply font_length|].
  exists (rom_entry v). split.
  - rewrite getitem_inrange by exact Hv. by rewrite rom_entry_lookup.
  - destruct (rom_check_byte v Hv) as (H7 & _ & Hz).
    rewrite glyph_rows_pad, H7 by lia. rewrite <- Hz, forallb_zero, H7.
    change (8 - 7)%nat with 1%nat. split.
    + intros E. change (replicate 8 0) with (replicate 7 0 ++ [0]) in E.
      by apply app_inv_tail in E.
    + intros ->. reflexivity.
Qed.

Lemma CHAR_ROM_one_entry_per_byte_witness :
  len CHAR_ROM = 256 /\
  len _update_font = 256 /\
  exists c,
    getitem CHAR_ROM 16 = Ok c /\
    (glyph_rows c = replicate 8 0 <-> blank_code 16 = true).
Proof.
  apply (CHAR_ROM_one_entry_per_byte 16). unfold is_byte. lia.
Defined.

(** C4.  Looking up the glyph of a byte value always succeeds, in the ROM
    and in the font built from it; the glyph has exactly eight rows, the
    seven of the ROM entry and one zero row, each a five-bit pattern, and
    its image holds forty dots.  Any definition of at most eight rows is
    filled up with zero rows. *)
Theorem glyph_lookup_total (v : Z) :
  is_byte v ->
  exists c im,
    getitem CHAR_ROM v = Ok c /\
    getitem _update_font v = Ok im /\
    im = render_char c /\
    length (glyph_rows c) = 8%nat /\
    glyph_rows c = c ++ [0] /\
    Forall (fun r => 0 <= r < 32) (glyph_rows c) /\
    length (im_rects im) = 40%nat /\
    forall c' : list Z, (length c' <= 8)%nat ->
      glyph_rows c' = c' ++ replicate (8 - length c') 0.
Proof.
  intros Hv. exists (rom_entry v), (glyph_image v).
  destruct (rom_check_byte v Hv) as (H7 & H32 & _).
  assert (Hpad : glyph_rows (rom_entry v) = rom_entry v ++ [0])
    by (rewrite glyph_rows_pad, H7 by lia; reflexivity).
  split; [rewrite getitem_inrange by exact Hv; by rewrite rom_entry_lookup|].
  split; [by apply font_getitem|]. split; [reflexivity|].
  split; [apply glyph_rows_length|]. split; [exact Hpad|].
  split; [rewrite Hpad; apply Forall_app; split; [done|]; by repeat constructor|].
  split; [|exact glyph_rows_pad].
  unfold glyph_image, render_char. cbn [im_rects].
  pose proof (glyph_rows_length (rom_entry v)) as L.
  destruct (glyph_rows (rom_entry v)) as [|r0 [|r1 [|r2 [|r3 [|r4 [|r5 [|r6 [|r7 [|]]]]]]]]];
    try discriminate L.
  reflexivity.
Qed.

Lemma glyph_lookup_total_witness :
  exists c im,
    getitem CHAR_ROM 65 = Ok c /\
    getitem _update_font 65 = Ok im /\
    im = render_char c /\
    length (glyph_rows c) = 8%nat /\
    glyph_rows c = c ++ [0] /\
    Forall (fun r => 0 <= r < 32) (glyph_rows c) /\
    length (im_rects im) = 40%nat /\
    forall c' : list Z, (length c' <= 8)%nat ->
      glyph_rows c' = c' ++ replicate (8 - length c') 0.
Proof.
  apply (glyph_lookup_total 65). unfold is_byte. lia.
Defined.

(** *** Dots *)

Lemma lcd_on_off : lcd_on <> lcd_off.
Proof. vm_compute. discriminate. Qed.

(** Masking with [1 << k] tests bit [k]. *)
Lemma land_shiftl_1 (r k : Z) :
  0 <= k -> (Z.land r (Z.shiftl 1 k) =? 0) = negb (Z.testbit r k).
Proof.
  intros Hk. rewrite Z.shiftl_1_l.
  destruct (Z.testbit r k) eqn:E; cbn [negb].
  - apply Z.eqb_neq. intros H0.
    assert (Hb : Z.testbit (Z.land r (2 ^ k)) k = true)
      by (rewrite Z.land_spec, E, Z.pow2_bits_true by lia; reflexivity).
    rewrite H0, Z.bits_0 in Hb. discriminate.
  - apply Z.eqb_eq. apply Z.bits_inj'. intros n Hn.
    rewrite Z.land_spec, Z.bits_0.
    destruct (Z.eq_dec n k) as [->|Hne].
    + by rewrite E.
    + rewrite (Z.pow2_bits_false k n) by lia. apply andb_false_r.
Qed.

Lemma dot_colour_bit (r i : Z) :
  0 <= i <= 4 ->
  dot_colour r i = if Z.testbit r (4 - i) then lcd_on else lcd_off.
Proof.
  intros Hi. unfold dot_colour. rewrite land_shiftl_1 by lia.
  by destruct (Z.testbit r (4 - i)).
Qed.

(** Every pixel of the dot in row [r_idx], column [c_idx] of a glyph image
    has the colour chosen for that dot. *)
Lemma pixel_dot (c : list Z) (r_idx c_idx : nat) (r_def dx dy : Z) :
  glyph_rows c !! r_idx = Some r_def ->
  (c_idx < 5)%nat -> 0 <= dx < 2 -> 0 <= dy < 2 ->
  pixel (render_char c)
    (4 * Z.of_nat c_idx + 2 + dx) (4 * Z.of_nat r_idx + 2 + dy)
  = dot_colour r_def (Z.of_nat c_idx).
Proof.
  intros Hr Hc Hdx Hdy. unfold pixel, render_char. cbn [im_rects im_fill].
  pose proof (glyph_rows_length c) as L.
  destruct (glyph_rows c)
    as [|r0 [|r1 [|r2 [|r3 [|r4 [|r5 [|r6 [|r7 [|]]]]]]]]];
    try discriminate L. clear L.
  assert (Ex : dx = 0 \/ dx = 1) by lia.
  assert (Ey : dy = 0 \/ dy = 1) by lia.
  destruct r_idx as [|[|[|[|[|[|[|[|r_idx]]]]]]]]; try discriminate Hr;
    injection Hr as <-;
    (destruct c_idx as [|[|[|[|[|c_idx]]]]]; [| | | | |lia]);
    destruct Ex as [-> | ->]; destruct Ey as [-> | ->];
    lazy -[dot_colour]; reflexivity.
Qed.

(** C5, as the code has it.  In a glyph image, the dot in column [i]
    (counted from the left, 0 to 4) of a row with pattern [r] is lit exactly
    when bit [4 - i] of [r] is set, and has the off colour exactly when that
    bit is clear: the most significant of the five bits is the leftmost
    dot. *)
Theorem dot_lit_iff_bit (c : list Z) (r_idx c_idx : nat) (r dx dy : Z) :
  glyph_rows c !! r_idx = Some r ->
  (c_idx < 5)%nat -> 0 <= dx < 2 -> 0 <= dy < 2 ->
  let px := pixel (render_char c)
              (4 * Z.of_nat c_idx + 2 + dx) (4 * Z.of_nat r_idx + 2 + dy) in
  px = dot_colour r (Z.of_nat c_idx) /\
  (px = lcd_on <-> Z.testbit r (4 - Z.of_nat c_idx) = true) /\
  (px = lcd_off <-> Z.testbit r (4 - Z.of_nat c_idx) = false).
Proof.
  intros Hr Hc Hdx Hdy px. subst px.
  rewrite (pixel_dot c r_idx c_idx r dx dy) by done.
  rewrite dot_colour_bit by lia. pose proof lcd_on_off as Hne.
  destruct (Z.testbit r (4 - Z.of_nat c_idx)); repeat split;
    try done; intros E; try discriminate E; congruence.
Qed.

Lemma dot_lit_iff_bit_witness :
  let px := pixel (render_char [16; 16; 16; 16; 16; 16; 31]) 2 26 in
  px = dot_colour 31 0 /\
  (px = lcd_on <-> Z.testbit 31 4 = true) /\
  (px = lcd_off <-> Z.testbit 31 4 = false).
Proof.
  apply (dot_lit_iff_bit [16; 16; 16; 16; 16; 16; 31] 6 0 31 0 0).
  - reflexivity.
  - lia.
  - lia.
  - lia.
Defined.

(** C5, the claim at row pattern 1 and column 0: bit 0 is set, yet the dot
    of column 0 is off; the lit dot is the one of column 4. *)
Lemma dot_bit_counterexample :
  Z.testbit 1 0 = true /\
  dot_colour 1 0 = lcd_off /\
  pixel (render_char [1]) 2 2 = lcd_off /\
  pixel (render_char [1]) 18 2 = lcd_on /\
  ~ (dot_colour 1 0 = lcd_on <-> Z.testbit 1 0 = true).
Proof.
  repeat split; try reflexivity.
  intros [_ H]. specialize (H eq_refl). vm_compute in H. discriminate H.
Qed.

(** *** The [display] property *)

Lemma display_setter_1_inv (v : HD44780View) :
  subscribed_to_display v ->
  display_setter_1 v = (with_display v (_display v) [], Ok tt).
Proof.
  unfold subscribed_to_display, display_setter_1, disconnect_update.
  intros Hv. destruct v as [r c [old|] f subs n]; cbn in *; subst subs.
  - rewrite decide_True by apply list_elem_of_here.
    rewrite filter_cons, decide_False by (intros H; by apply H).
    reflexivity.
  - reflexivity.
Qed.

Lemma run_setter_Some (v : HD44780View) (new : HD44780) :
  subscribed_to_display v ->
  run (display_setter_body (Some new)) v
  = ([with_display v (_display v) [];
      with_display v (Some new) [];
      with_display v (Some new) [oid new];
      fst (display_setter_4 (with_display v (Some new) [oid new]))],
     Ok tt).
Proof.
  intros Hv. unfold display_setter_body. cbn [run].
  rewrite display_setter_1_inv by done. reflexivity.
Qed.

Lemma run_setter_None (v : HD44780View) :
  subscribed_to_display v ->
  run (display_setter_body None) v
  = ([with_display v (_display v) [];
      with_display v None [];
      with_display v None []],
     Raise AttributeError).
Proof.
  intros Hv. unfold display_setter_body. cbn [run].
  rewrite display_setter_1_inv by done. reflexivity.
Qed.

Lemma reachable_subscribed (v : HD44780View) :
  reachable v -> subscribed_to_display v.
Proof.
  induction 1 as [|d v Hv IH]; [reflexivity|].
  unfold display_setter. destruct d as [new|].
  - rewrite run_setter_Some by done. reflexivity.
  - rewrite run_setter_None by done. reflexivity.
Qed.

(** Assignments never touch the font: a view always paints with the font
    built from the ROM. *)
Lemma reachable_font (v : HD44780View) :
  reachable v -> _font v = _update_font.
Proof.
  induction 1 as [|d v Hv IH]; [reflexivity|].
  pose proof (reachable_subscribed v Hv) as Hs.
  unfold display_setter. destruct d as [new|].
  - rewrite run_setter_Some by done. exact IH.
  - rewrite run_setter_None by done. exact IH.
Qed.

Lemma view_paintEvent_reachable (v : HD44780View) :
  reachable v ->
  view_paintEvent v = paintEvent _update_font (_display v).
Proof. intros Hv. unfold view_paintEvent. by rewrite reachable_font. Qed.

(** C10.  On any view a program can hold, an assignment to [display] never
    leaves more than one subscription, not even between its statements.
    With a display [new] it first drops the subscription to the previous
    display, then stores [new], then subscribes to [new] and asks for a
    repaint.  With [None] it drops the subscription, stores [None] and
    raises [AttributeError] on [None.update]: no repaint is asked for. *)
Theorem display_single_subscription (v : HD44780View)
    (d : option HD44780) :
  reachable v ->
  Forall (fun s => (length (subscribed s) <= 1)%nat)
    (v :: display_setter_trace d v) /\
  match d with
  | Some new =>
      exists v1 v2 v3 v4,
        display_setter_trace d v = [v1; v2; v3; v4] /\
        subscribed v1 = [] /\ _display v1 = _display v /\
        subscribed v2 = [] /\ _display v2 = Some new /\
        subscribed v3 = [oid new] /\
        display_setter d v = (v4, Ok tt) /\
        _display v4 = Some new /\ subscribed v4 = [oid new] /\
        update_requests v4 = S (update_requests v)
  | None =>
      exists v',
        display_setter d v = (v', Raise AttributeError) /\
        _display v' = None /\ subscribed v' = [] /\
        update_requests v' = update_requests v
  end.
Proof.
  intros Hr. pose proof (reachable_subscribed v Hr) as Hv.
  assert (H1 : (length (subscribed v) <= 1)%nat).
  { rewrite Hv. destruct (_display v); cbn; lia. }
  unfold display_setter, display_setter_trace. destruct d as [new|].
  - rewrite run_setter_Some by done. split.
    + repeat (constructor; [cbn; lia|]). constructor.
    + eexists _, _, _, _. repeat split; reflexivity.
  - rewrite run_setter_None by done. split.
    + repeat (constructor; [cbn; lia|]). constructor.
    + eexists. repeat split; reflexivity.
Qed.

Lemma display_single_subscription_witness :
  Forall (fun s => (length (subscribed s) <= 1)%nat)
    (fst (display_setter (Some full_display) HD44780View_init)
       :: display_setter_trace (Some other_display)
            (fst (display_setter (Some full_display) HD44780View_init))) /\
  exists v1 v2 v3 v4,
    display_setter_trace (Some other_display)
      (fst (display_setter (Some full_display) HD44780View_init))
    = [v1; v2; v3; v4] /\
    subscribed v1 = [] /\
    _display v1
    = _display (fst (display_setter (Some full_display) HD44780View_init)) /\
    subscribed v2 = [] /\ _display v2 = Some other_display /\
    subscribed v3 = [oid other_display] /\
    display_setter (Some other_display)
      (fst (display_setter (Some full_display) HD44780View_init))
    = (v4, Ok tt) /\
    _display v4 = Some other_display /\
    subscribed v4 = [oid other_display] /\
    update_requests v4
    = S (update_requests
           (fst (display_setter (Some full_display) HD44780View_init))).
Proof.
  apply (display_single_subscription
           (fst (display_setter (Some full_display) HD44780View_init))
           (Some other_display)).
  apply reachable_set. apply reachable_init.
Defined.

(** *** Beyond the four rows *)

Lemma slice_halves {A} (l : list A) (a : nat) :
  slice l (Z.of_nat a) (Z.of_nat (a + 20))
  = take 20 (slice l (Z.of_nat a) (Z.of_nat (a + 40))) /\
  slice l (Z.of_nat (a + 20)) (Z.of_nat (a + 40))
  = drop 20 (slice l (Z.of_nat a) (Z.of_nat (a + 40))).
Proof.
  rewrite !slice_take_drop by lia.
  replace (a + 20 - a)%nat with 20%nat by lia.
  replace (a + 40 - a)%nat with 40%nat by lia.
  replace (a + 40 - (a + 20))%nat with 20%nat by lia. split.
  - by rewrite take_take.
  - rewrite <- drop_drop. symmetry. apply skipn_firstn_comm.
Qed.

Lemma rows_from_halves {A} (l : list A) :
  slice l 0 20 = take 20 (slice l 0 40) /\
  slice l 20 40 = drop 20 (slice l 0 40) /\
  slice l 64 84 = take 20 (slice l 64 104) /\
  slice l 84 104 = drop 20 (slice l 64 104).
Proof.
  destruct (slice_halves l 0) as [H1 H2].
  destruct (slice_halves l 64) as [H3 H4].
  repeat split; [exact H1|exact H2|exact H3|exact H4].
Qed.

(** X8.  What is painted depends on [ddram[0:40]] and [ddram[64:104]]
    only: two buffers that agree there are painted alike, whatever they
    hold in the slots 40 to 63 and from 104 on, and whatever their
    lengths. *)
Theorem paintEvent_ignores_padding (font : list QImage) (d1 d2 : HD44780) :
  slice (ddram d1) 0 40 = slice (ddram d2) 0 40 ->
  slice (ddram d1) 64 104 = slice (ddram d2) 64 104 ->
  paintEvent font (Some d1) = paintEvent font (Some d2).
Proof.
  intros E0 E64. unfold paintEvent.
  destruct (rows_from_halves (ddram d1)) as (A1 & B1 & C1 & D1).
  destruct (rows_from_halves (ddram d2)) as (A2 & B2 & C2 & D2).
  rewrite A1, B1, C1, D1, A2, B2, C2, D2, E0, E64. reflexivity.
Qed.

Lemma paintEvent_ignores_padding_witness :
  paintEvent _update_font (Some full_display)
  = paintEvent _update_font (Some padded_display).
Proof.
  apply (paintEvent_ignores_padding _update_font full_display
           padded_display).
  - vm_compute. reflexivity.
  - vm_compute. reflexivity.
Defined.

Lemma reachable_geometry (v : HD44780View) :
  reachable v -> rows v = 4 /\ cols v = 20.
Proof.
  induction 1 as [|d v Hv IH]; [done|].
  pose proof (reachable_subscribed v Hv) as Hs.
  unfold display_setter. destruct d as [new|].
  - rewrite run_setter_Some by done. exact IH.
  - rewrite run_setter_None by done. exact IH.
Qed.

Lemma row_inside (y : Z) (l : list Z) :
  (length l <= 20)%nat -> 0 <= y <= 102 ->
  Forall (inside 440 136) (imap (cell y) l).
Proof.
  intros Hl Hy. apply Forall_forall. intros op Hop.
  apply elem_of_lookup_imap_1 in Hop as (i & v & -> & Hi).
  apply lookup_lt_Some in Hi. unfold inside, cell.
  cbn [di_x di_y di_image]. unfold glyph_image.
  destruct (render_char_size (rom_entry v)) as [-> ->]. lia.
Qed.

(** X9.  A view that shows a buffer of bytes asks for 440 by 136 pixels,
    twenty glyph widths by four glyph heights, and every glyph it paints
    lies inside that rectangle. *)
Theorem paint_inside_sizeHint (v : HD44780View) (d : HD44780) :
  reachable v ->
  _display v = Some d ->
  Forall is_byte (ddram d) ->
  exists ops,
    view_paintEvent v = Ok ops /\
    sizeHint v = Ok (440, 136) /\
    Forall (inside 440 136) ops.
Proof.
  intros Hr Hd Hb. eexists. split; [|split].
  - rewrite view_paintEvent_reachable, Hd by done. by apply paintEvent_rows.
  - unfold sizeHint. destruct (reachable_geometry v Hr) as [-> ->].
    rewrite (reachable_font v Hr), font_length.
    change (0 <? 256) with true. cbv iota.
    rewrite (font_getitem 0) by (unfold is_byte; lia). reflexivity.
  - slice_nat. rewrite !Forall_app.
    repeat split; apply row_inside; try lia;
      rewrite slice_length by lia; lia.
Qed.

Lemma paint_inside_sizeHint_witness :
  exists ops,
    view_paintEvent (fst (display_setter (Some full_display)
                            HD44780View_init)) = Ok ops /\
    sizeHint (fst (display_setter (Some full_display) HD44780View_init))
    = Ok (440, 136) /\
    Forall (inside 440 136) ops.
Proof.
  apply (paint_inside_sizeHint
           (fst (display_setter (Some full_display) HD44780View_init))
           full_display).
  - apply reachable_set, reachable_init.
  - reflexivity.
  - apply Forall_forall. intros b Hb. apply list_elem_of_In in Hb.
    unfold full_display, ddram, range in Hb.
    apply in_map_iff in Hb. destruct Hb as (n & <- & Hn).
    apply in_seq in Hn. unfold is_byte. lia.
Defined.

Lemma getitem_IndexError {A} (l : list A) (i : Z) (e : exn) :
  getitem l i = Raise e -> e = IndexError.
Proof.
  unfold getitem.
  destruct ((0 <=? _) && _); [|congruence].
  destruct (l !! _); congruence.
Qed.

Lemma getitem_outside (v : Z) :
  ~ (-256 <= v < 256) -> getitem _update_font v = Raise IndexError.
Proof.
  intros Hv. unfold getitem. rewrite font_length.
  destruct (Z.ltb_spec v 0).
  - destruct (Z.leb_spec 0 (v + 256)); [lia|reflexivity].
  - destruct (Z.leb_spec 0 v); [|lia].
    destruct (Z.ltb_spec v 256); [lia|reflexivity].
Qed.

(** A row stops at the first value the font cannot index, and that is
    the only way it stops. *)
Lemma paint_cells_outcome (font : list QImage) (y : Z)
    (l : list (Z * Z)) (p : list DrawImage) :
  (exists q, for_each l
     (fun '(c, v) p =>
        im <~ getitem font v ;;
        Ok (p ++ [mkDrawImage (c * im_width im) y im])) p = Ok q /\
     Forall (fun cv => exists im, getitem font cv.2 = Ok im) l) \/
  for_each l
     (fun '(c, v) p =>
        im <~ getitem font v ;;
        Ok (p ++ [mkDrawImage (c * im_width im) y im])) p
  = Raise IndexError.
Proof.
  revert p. induction l as [|[c v] l IH]; intros p.
  - left. eexists. split; [reflexivity|constructor].
  - cbn [for_each]. destruct (getitem font v) as [im|e] eqn:E; cbn [bind].
    + destruct (IH (p ++ [mkDrawImage (c * im_width im) y im]))
        as [(q & Hq & Hall)|Hr].
      * left. exists q. split; [exact Hq|]. constructor; [|exact Hall].
        exists im. exact E.
      * right. exact Hr.
    + right. by rewrite (getitem_IndexError _ _ _ E).
Qed.

Lemma paint_row_bad (y : Z) (contents : list Z) (p : list DrawImage)
    (v : Z) :
  v ∈ contents -> ~ (-256 <= v < 256) ->
  paint_row _update_font y contents p = Raise IndexError.
Proof.
  intros Hin Hv. unfold paint_row.
  destruct (paint_cells_outcome _update_font y (enumerate contents) p)
    as [(q & _ & Hall)|Hr]; [|exact Hr].
  apply list_elem_of_lookup in Hin as [i Hi].
  rewrite Forall_forall in Hall.
  destruct (Hall (Z.of_nat i, v)) as [im Him].
  - unfold enumerate.
    apply (elem_of_lookup_imap_2 (fun i x => (Z.of_nat i, x)) _ _ _ Hi).
  - cbn in Him. rewrite getitem_outside in Him by done. discriminate.
Qed.

Lemma paint_row_outcome (y : Z) (contents : list Z) (p : list DrawImage) :
  (exists q, paint_row _update_font y contents p = Ok q) \/
  paint_row _update_font y contents p = Raise IndexError.
Proof.
  unfold paint_row.
  destruct (paint_cells_outcome _update_font y (enumerate contents) p)
    as [(q & Hq & _)|Hr]; [left; by exists q|right; exact Hr].
Qed.

Lemma slice_elem (l : list Z) (a b i : nat) (v : Z) :
  (a <= i < b)%nat -> l !! i = Some v ->
  v ∈ slice l (Z.of_nat a) (Z.of_nat b).
Proof.
  intros Hi Hv. apply list_elem_of_lookup. exists (i - a)%nat.
  rewrite slice_lookup by lia. rewrite <- Hv. f_equal. lia.
Qed.

(** X10.  If one of the painted slots, 0 to 39 or 64 to 103, holds a value
    outside [-256, 256), indexing the font raises [IndexError] and the
    paint event ends with it: the row is not painted up to the end. *)
Theorem paintEvent_bad_cell (d : HD44780) (i : nat) (v : Z) :
  (i < 40 \/ 64 <= i < 104)%nat ->
  ddram d !! i = Some v ->
  ~ (-256 <= v < 256) ->
  paintEvent _update_font (Some d) = Raise IndexError.
Proof.
  intros Hi Hd Hv. unfold paintEvent. rewrite font_length.
  change (256 =? 0) with false. cbv iota.
  rewrite (font_getitem 0) by (unfold is_byte; lia). cbn [bind].
  change (im_height (glyph_image 0)) with 34.
  assert (Hrow : v ∈ slice (ddram d) 0 20 \/ v ∈ slice (ddram d) 64 84 \/
                 v ∈ slice (ddram d) 20 40 \/ v ∈ slice (ddram d) 84 104).
  { destruct (decide (i < 20)%nat);
      [left; exact (slice_elem _ 0 20 i v ltac:(lia) Hd)|].
    destruct (decide (i < 40)%nat);
      [right; right; left; exact (slice_elem _ 20 40 i v ltac:(lia) Hd)|].
    destruct (decide (i < 84)%nat);
      [right; left; exact (slice_elem _ 64 84 i v ltac:(lia) Hd)|].
    right; right; right; exact (slice_elem _ 84 104 i v ltac:(lia) Hd). }
  destruct (paint_row_outcome (0 * 34) (slice (ddram d) 0 20) [])
    as [[q0 E0]|E0]; rewrite E0; [cbn [bind]|done].
  destruct (paint_row_outcome (1 * 34) (slice (ddram d) 64 84) q0)
    as [[q1 E1]|E1]; rewrite E1; [cbn [bind]|done].
  destruct (paint_row_outcome (2 * 34) (slice (ddram d) 20 40) q1)
    as [[q2 E2]|E2]; rewrite E2; [cbn [bind]|done].
  destruct (paint_row_outcome (3 * 34) (slice (ddram d) 84 104) q2)
    as [[q3 E3]|E3]; rewrite E3; [cbn [bind]|done].
  destruct Hrow as [H|[H|[H|H]]].
  - rewrite (paint_row_bad _ _ _ v H Hv) in E0. discriminate.
  - rewrite (paint_row_bad _ _ _ v H Hv) in E1. discriminate.
  - rewrite (paint_row_bad _ _ _ v H Hv) in E2. discriminate.
  - rewrite (paint_row_bad _ _ _ v H Hv) in E3. discriminate.
Qed.

Lemma paintEvent_bad_cell_witness :
  paintEvent _update_font (Some broken_display) = Raise IndexError.
Proof.
  apply (paintEvent_bad_cell broken_display 70 300).
  - lia.
  - reflexivity.
  - lia.
Defined.

(** X11.  A glyph image is the five by eight dot matrix on its background
    and nothing else: cut into cells of four by four pixels, the first two
    columns and the first two rows of every cell keep the background
    colour, and the remaining two by two pixels have the colour of the dot
    of that row and column. *)
Theorem glyph_image_pixels (c : list Z) (x y : Z) :
  0 <= x < 22 -> 0 <= y < 34 ->
  pixel (render_char c) x y
  = if (x mod 4 <? 2) || (y mod 4 <? 2) then lcd_bg
    else dot_colour (nth (Z.to_nat (y / 4)) (glyph_rows c) 0) (x / 4).
Proof.
  intros Hx Hy. unfold pixel, render_char. cbn [im_rects im_fill].
  pose proof (glyph_rows_length c) as L.
  destruct (glyph_rows c)
    as [|r0 [|r1 [|r2 [|r3 [|r4 [|r5 [|r6 [|r7 [|]]]]]]]]];
    try discriminate L. clear L.
  assert (Hn : (Z.to_nat x < 22)%nat) by lia.
  assert (Hk : (Z.to_nat y < 34)%nat) by lia.
  replace x with (Z.of_nat (Z.to_nat x)) by lia.
  replace y with (Z.of_nat (Z.to_nat y)) by lia.
  revert Hn Hk. generalize (Z.to_nat x) (Z.to_nat y). clear Hx Hy x y.
  intros n k Hn Hk.
  do 22 (destruct n as [|n];
         [do 34 (destruct k as [|k]; [lazy -[dot_colour]; reflexivity|]);
          lia|]).
  lia.
Qed.

Lemma glyph_image_pixels_witness :
  pixel (render_char [16; 16; 16; 16; 16; 16; 31]) 18 26
  = if (18 mod 4 <? 2) || (26 mod 4 <? 2) then lcd_bg
    else dot_colour
           (nth (Z.to_nat (26 / 4))
              (glyph_rows [16; 16; 16; 16; 16; 16; 31]) 0) (18 / 4).
Proof.
  apply (glyph_image_pixels [16; 16; 16; 16; 16; 16; 31] 18 26); lia.
Defined.

End LCD.

(** ** The terminal bridge *)

Module Terminal.

Import Display Reading.

Section Bridge.

Variable Stream : Type.
Variable feed : Stream -> list Z -> Stream.

Implicit Types (t : TerminalView Stream) (bs xs ys : list Z).

Lemma receive_all_app xs ys t :
  receive_all (xs ++ ys) t = receive_all ys (receive_all xs t).
Proof. unfold receive_all. apply fold_left_app. Qed.

(** Receiving only touches the queue, and appends in order. *)
Lemma receive_all_spec bs t :
  receive_all bs t
  = {| stream := stream t; _input_buffer := _input_buffer t ++ bs;
       fed := fed t; transmitted := transmitted t; redraws := redraws t |}.
Proof.
  revert t. induction bs as [|b bs IH]; intros t.
  - destruct t. cbn. by rewrite app_nil_r.
  - unfold receive_all in *. cbn [fold_left]. rewrite IH.
    cbn. by rewrite <- app_assoc.
Qed.

(** Whatever happens to the view, the bytes fed so far followed by the
    bytes still queued are the bytes received, in the order received. *)
Lemma fifo_steps (es : list event) t :
  concat (fed (steps feed es t)) ++ _input_buffer (steps feed es t)
  = concat (fed t) ++ _input_buffer t ++ received es.
Proof.
  revert t. induction es as [|e es IH]; intros t.
  - cbn. by rewrite app_nil_r.
  - unfold steps in *. cbn [fold_left]. rewrite IH. unfold received.
    rewrite fmap_cons. cbn [concat]. destruct e as [b| |txt]; cbn [step].
    + cbn. by rewrite <- !app_assoc.
    + cbn. rewrite concat_app. cbn. by rewrite app_nil_r, <- !app_assoc.
    + assert (K : forall t', fed (keyReleaseEvent txt t') = fed t' /\
                  _input_buffer (keyReleaseEvent txt t') = _input_buffer t').
      { unfold keyReleaseEvent. destruct txt as [|c txt]; [done|].
        generalize (c :: txt). intros l. induction l as [|x l IHl]; [done|].
        intros t'. cbn [fold_left]. destruct (IHl
          {| stream := stream t'; _input_buffer := _input_buffer t';
             fed := fed t'; transmitted := transmitted t' ++ [ord x];
             redraws := redraws t' |}) as [-> ->]. done. }
      destruct (K t) as [-> ->]. done.
Qed.

(** C8.  Bytes enqueued in two batches and drained once leave the view
    exactly as the same bytes enqueued in one batch and drained once: the
    engine is fed a single string, the queue as it was followed by the new
    bytes in the order they were enqueued, and the queue is left empty.
    Over any run of events from a fresh view, what was fed, drain after
    drain, followed by what is still queued is what was received, in
    order. *)
Theorem enqueue_drain_batching xs ys t :
  _have_input feed (receive_all ys (receive_all xs t))
  = _have_input feed (receive_all (xs ++ ys) t) /\
  stream (_have_input feed (receive_all (xs ++ ys) t))
  = feed (stream t) (_input_buffer t ++ xs ++ ys) /\
  fed (_have_input feed (receive_all (xs ++ ys) t))
  = fed t ++ [_input_buffer t ++ xs ++ ys] /\
  _input_buffer (_have_input feed (receive_all (xs ++ ys) t)) = [] /\
  forall (es : list event) (s0 : Stream),
    concat (fed (steps feed es (TerminalView_init s0)))
      ++ _input_buffer (steps feed es (TerminalView_init s0))
    = received es.
Proof.
  split; [by rewrite receive_all_app|].
  rewrite receive_all_spec. repeat split.
  intros es s0. by rewrite fifo_steps.
Qed.

Lemma keyReleaseEvent_emits (txt : ustr) t :
  keyReleaseEvent txt t
  = {| stream := stream t; _input_buffer := _input_buffer t;
       fed := fed t; transmitted := transmitted t ++ (ord <$> txt);
       redraws := redraws t |}.
Proof.
  unfold keyReleaseEvent. destruct txt as [|c0 txt0].
  - destruct t. cbn. by rewrite app_nil_r.
  - generalize (c0 :: txt0). intros l. revert t.
    induction l as [|c l IH]; intros t.
    + destruct t. cbn. by rewrite app_nil_r.
    + cbn [fold_left]. rewrite IH. cbn. by rewrite <- app_assoc.
Qed.

(** C9, as the code has it.  A key event with a non-empty text emits, for
    each code point of the text and in the order of the text, one
    [transmitByte] carrying that code point's number; nothing else of the
    view changes.  The number emitted is a byte value exactly when the code
    point is below 256. *)
Theorem keyReleaseEvent_per_code_point (txt : ustr) t :
  txt <> [] ->
  transmitted (keyReleaseEvent txt t) = transmitted t ++ (ord <$> txt) /\
  length (ord <$> txt) = length txt /\
  (forall (i : nat) (c : Z), txt !! i = Some c ->
     transmitted (keyReleaseEvent txt t) !! (length (transmitted t) + i)%nat
     = Some (ord c) /\
     (is_byte (ord c) <-> 0 <= c < 256)) /\
  _input_buffer (keyReleaseEvent txt t) = _input_buffer t /\
  stream (keyReleaseEvent txt t) = stream t /\
  fed (keyReleaseEvent txt t) = fed t.
Proof.
  intros _. rewrite keyReleaseEvent_emits. cbn.
  split; [done|]. split; [apply length_fmap|]. split; [|done].
  intros i c Hc. split; [|done].
  rewrite lookup_app_r by lia.
  replace (length (transmitted t) + i - length (transmitted t))%nat
    with i by lia.
  rewrite list_lookup_fmap. unfold ustr in *. by rewrite Hc.
Qed.

End Bridge.

(** Three bytes of an escape sequence, enqueued in two batches: one drain
    feeds them as one string; drained in between, they reach the engine in
    the same order. *)
Example enqueue_drain_escape :
  fed (_have_input log_feed
         (receive_all [72] (receive_all [27; 91] fresh_terminal)))
  = [[27; 91; 72]] /\
  stream (steps log_feed
            [EvReceiveByte 27; EvReceiveByte 91; EvHaveInput;
             EvReceiveByte 72; EvHaveInput] fresh_terminal)
  = [27; 91; 72].
Proof. split; reflexivity. Qed.

Lemma keyReleaseEvent_per_code_point_witness :
  let t := fresh_terminal in
  transmitted (keyReleaseEvent [104; 105] t)
  = transmitted t ++ (ord <$> [104; 105]) /\
  length (ord <$> [104; 105]) = length [104; 105] /\
  (forall (i : nat) (c : Z), [104; 105] !! i = Some c ->
     transmitted (keyReleaseEvent [104; 105] t)
       !! (length (transmitted t) + i)%nat
     = Some (ord c) /\
     (is_byte (ord c) <-> 0 <= c < 256)) /\
  _input_buffer (keyReleaseEvent [104; 105] t) = _input_buffer t /\
  stream (keyReleaseEvent [104; 105] t) = stream t /\
  fed (keyReleaseEvent [104; 105] t) = fed t.
Proof.
  apply (keyReleaseEvent_per_code_point (list Z) [104; 105]
           fresh_terminal).
  discriminate.
Defined.

(** C9, the claim at the text of a euro sign key: one emission, of 8364,
    which is no byte value. *)
Lemma keyReleaseEvent_counterexample :
  transmitted (keyReleaseEvent [8364] fresh_terminal) = [8364] /\
  ~ is_byte 8364.
Proof.
  split; [reflexivity|]. unfold is_byte. lia.
Qed.

(** *** Runs of events *)

Section Runs.

Variable Stream : Type.
Variable feed : Stream -> list Z -> Stream.

Implicit Types (t : TerminalView Stream) (es : list event).

Lemma steps_snoc es (e : event) t :
  steps feed (es ++ [e]) t = step Stream feed (steps feed es t) e.
Proof. unfold steps. by rewrite fold_left_app. Qed.

Lemma drains_snoc es (e : event) :
  drains (es ++ [e])
  = (drains es + match e with EvHaveInput => 1 | _ => 0 end)%nat.
Proof.
  induction es as [|e' es IH]; [by destruct e|].
  cbn [app drains]. rewrite IH. by destruct e'.
Qed.

(** X6.  Over any run of events, however key presses, received bytes and
    drains interleave, the emissions on [transmitByte] are the code points
    typed, in the order typed: receiving and draining never emit, drop or
    reorder an outbound value. *)
Theorem outbound_in_typing_order es t :
  transmitted (steps feed es t) = transmitted t ++ (ord <$> typed es).
Proof.
  revert t. induction es as [|e es IH]; intros t.
  - cbn. by rewrite app_nil_r.
  - unfold steps in *. cbn [fold_left]. rewrite IH. unfold typed.
    rewrite fmap_cons. cbn [concat]. destruct e as [b| |txt]; cbn [step].
    + reflexivity.
    + reflexivity.
    + rewrite keyReleaseEvent_emits. cbn [transmitted].
      by rewrite fmap_app, app_assoc.
Qed.

(** X7.  From a fresh view, every drain makes exactly one [feed] call and
    asks for exactly one redraw, an empty queue included, and nothing else
    does; the engine is in the state the recorded feeds, applied in order,
    lead to. *)
Theorem one_feed_per_drain es (s0 : Stream) :
  let t := steps feed es (TerminalView_init s0) in
  length (fed t) = drains es /\
  redraws t = drains es /\
  stream t = fold_left feed (fed t) s0.
Proof.
  induction es as [|e es IH] using rev_ind; [done|].
  cbn zeta in *. rewrite steps_snoc, drains_snoc.
  destruct IH as (IH1 & IH2 & IH3).
  destruct e as [b| |txt]; cbn [step].
  - cbn. by rewrite !Nat.add_0_r.
  - cbn. rewrite length_app, fold_left_app, IH1, IH2, IH3. cbn.
    repeat split; lia.
  - rewrite keyReleaseEvent_emits. cbn. by rewrite !Nat.add_0_r.
Qed.

End Runs.

Example prompt_run_outbound :
  transmitted (steps log_feed prompt_run fresh_terminal) = [108; 115; 10] /\
  fed (steps log_feed prompt_run fresh_terminal) = [[36]; [32]; []] /\
  redraws (steps log_feed prompt_run fresh_terminal) = 3%nat.
Proof. repeat split. Qed.

End Terminal.

(** ** The memory page view *)

Module Memory.

Import Burisim Reading PyFacts.
Local Open Scope string_scope.
Local Open Scope Z_scope.

Lemma pair_check_all : forallb pair_check (range 256) = true.
Proof. vm_compute. reflexivity. Qed.

Lemma quad_check_all : forallb quad_check_page (range 256) = true.
Proof. vm_compute. reflexivity. Qed.

Lemma format_pair (b : Z) : is_byte b -> format_0X 2 b = hex_pair b.
Proof.
  intros Hb. apply String.eqb_eq.
  exact (forallb_range pair_check 256 pair_check_all b Hb).
Qed.

Lemma format_quad (n : Z) : 0 <= n < 65536 -> format_0X 4 n = hex_quad n.
Proof.
  intros Hn. apply String.eqb_eq.
  assert (Hhi : 0 <= n / 256 < Z.of_nat 256)
    by (split; [apply Z.div_pos | apply Z.div_lt_upper_bound]; lia).
  assert (Hlo : 0 <= n mod 256 < Z.of_nat 256)
    by (apply Z.mod_pos_bound; lia).
  pose proof (forallb_range _ _ quad_check_all _ Hhi) as H.
  pose proof (forallb_range _ _ H _ Hlo) as H'. cbv beta in H'.
  by rewrite <- Z.div_mod in H' by lia.
Qed.

Lemma gloss_item (b : Z) :
  (if (32 <=? b) && (b <? 127) then String (chr b) "" else ".")
  = String (gloss_char b) "".
Proof.
  unfold gloss_char.
  destruct (Z.leb_spec 32 b), (Z.ltb_spec b 127), (Z.ltb_spec b 32),
    (Z.leb_spec 127 b); cbn; try reflexivity; lia.
Qed.

Lemma append_empty_r (s : string) : s ++ "" = s.
Proof.
  induction s as [|a s IH]; [done|].
  change (String a (s ++ "") = String a s). by rewrite IH.
Qed.

(** [''.join(xs)] one item at a time. *)
Lemma concat_empty_cons (x : string) (xs : list string) :
  String.concat "" (x :: xs) = x ++ String.concat "" xs.
Proof.
  destruct xs; cbn [String.concat]; [by rewrite append_empty_r|reflexivity].
Qed.

Lemma asciirepr_gloss (l : list Z) :
  String.concat ""
    ((fun b => if (32 <=? b) && (b <? 127) then String (chr b) "" else ".")
       <$> l)
  = gloss l.
Proof.
  induction l as [|b l IH]; [reflexivity|].
  rewrite fmap_cons, concat_empty_cons, IH, gloss_item. reflexivity.
Qed.

Lemma gloss_length (l : list Z) : String.length (gloss l) = length l.
Proof. induction l as [|b l IH]; cbn; [done|by rewrite IH]. Qed.

Lemma format_pairs (l : list Z) :
  Forall is_byte l -> format_0X 2 <$> l = hex_pair <$> l.
Proof.
  induction 1 as [|b l Hb _ IH]; [done|].
  by rewrite !fmap_cons, IH, format_pair.
Qed.

(** A full line of sixteen bytes, as [render_line] builds it. *)
Lemma render_line_described (pg offset : Z) (contents : list Z) :
  0 <= pg * 256 + offset < 65536 ->
  length contents = 16%nat ->
  Forall is_byte contents ->
  render_line pg offset contents
  = described_line (pg * 256 + offset) contents.
Proof.
  intros Hn Hlen Hb. unfold render_line, described_line.
  rewrite format_quad, asciirepr_gloss by done.
  unfold len. rewrite Hlen. change (range3 0 (Z.of_nat 16) 8) with [0; 8].
  rewrite !fmap_cons, fmap_nil. change (0 + 8) with 8. change (8 + 8) with 16.
  assert (E0 : slice contents 0 8 = take 8 contents).
  { pose proof (slice_take_drop contents 0 8 ltac:(lia)) as E.
    rewrite drop_0 in E. exact E. }
  assert (E8 : slice contents 8 16 = drop 8 contents).
  { pose proof (slice_take_drop contents 8 16 ltac:(lia)) as E.
    rewrite take_ge in E by (rewrite length_drop; lia). exact E. }
  rewrite E0, E8.
  rewrite !format_pairs by (by apply Forall_take || by apply Forall_drop).
  unfold format_str. rewrite gloss_length, Hlen.
  do 17 (destruct contents as [|? contents]; try discriminate Hlen).
  reflexivity.
Qed.

Lemma described_line_length (n : Z) (contents : list Z) :
  length contents = 16%nat ->
  String.length (described_line n contents) = 74%nat.
Proof.
  intros Hlen.
  do 17 (destruct contents as [|? contents]; try discriminate Hlen).
  reflexivity.
Qed.

(** Line [k] of the dump shows the sixteen bytes from [256 * pg + 16 * k]. *)
Lemma dump_lines_window (m : list Z) (pg : Z) :
  dump_lines m pg
  = (fun k => render_line pg (16 * k)
                (slice m (256 * pg + 16 * k) (256 * pg + 16 * k + 16)))
      <$> range 16.
Proof. reflexivity. Qed.

Lemma bytes_checked (l : list Z) :
  forallb (fun b => (0 <=? b) && (b <? 256)) l = true -> Forall is_byte l.
Proof.
  intros H. apply Forall_forall. intros b Hb. apply list_elem_of_In in Hb.
  rewrite forallb_forall in H. specialize (H b Hb). unfold is_byte. lia.
Qed.

(** C7.  On a page [pg] of 0 to 255, line [k] of the refreshed dump renders
    the sixteen bytes at [256 * pg + 16 * k]; when all sixteen are there,
    the text is the offset as four hexadecimal digits, two spaces, the first
    eight bytes as hexadecimal pairs one space apart, two spaces, the last
    eight likewise, two spaces, and between two bars the sixteen-character
    gloss in which a byte below 32 or from 127 on is a dot: 74 characters.
    Bytes 0x00 to 0x0F at offset 0 of page 2 give the line of the example. *)
Theorem memory_line_format (m : list Z) (pg : Z) (k : nat) :
  0 <= pg < 256 ->
  (k < 16)%nat ->
  length (slice m (256 * pg + 16 * Z.of_nat k)
            (256 * pg + 16 * Z.of_nat k + 16)) = 16%nat ->
  Forall is_byte (slice m (256 * pg + 16 * Z.of_nat k)
                    (256 * pg + 16 * Z.of_nat k + 16)) ->
  dump_lines m pg !! k
  = Some (render_line pg (16 * Z.of_nat k)
            (slice m (256 * pg + 16 * Z.of_nat k)
               (256 * pg + 16 * Z.of_nat k + 16))) /\
  render_line pg (16 * Z.of_nat k)
    (slice m (256 * pg + 16 * Z.of_nat k) (256 * pg + 16 * Z.of_nat k + 16))
  = described_line (pg * 256 + 16 * Z.of_nat k)
      (slice m (256 * pg + 16 * Z.of_nat k)
         (256 * pg + 16 * Z.of_nat k + 16)) /\
  String.length
    (render_line pg (16 * Z.of_nat k)
       (slice m (256 * pg + 16 * Z.of_nat k)
          (256 * pg + 16 * Z.of_nat k + 16))) = 74%nat /\
  render_line 2 0 [0; 1; 2; 3; 4; 5; 6; 7; 8; 9; 10; 11; 12; 13; 14; 15]
  = "0200  00 01 02 03 04 05 06 07  08 09 0A 0B 0C 0D 0E 0F  |................|".
Proof.
  intros Hpg Hk Hlen Hb.
  set (contents := slice m _ _) in *.
  assert (Hd : render_line pg (16 * Z.of_nat k) contents
               = described_line (pg * 256 + 16 * Z.of_nat k) contents)
    by (apply render_line_described; [lia|done..]).
  split; [|split; [exact Hd|split]].
  - rewrite dump_lines_window, list_lookup_fmap.
    assert (Hr : range 16 !! k = Some (Z.of_nat k)).
    { unfold range. rewrite list_lookup_fmap, lookup_seq_lt by done.
      reflexivity. }
    rewrite Hr. reflexivity.
  - rewrite Hd. by apply described_line_length.
  - vm_compute. reflexivity.
Qed.

Lemma memory_line_format_witness :
  dump_lines memory_1k 2 !! 0%nat
  = Some (render_line 2 0 (slice memory_1k 512 528)) /\
  render_line 2 0 (slice memory_1k 512 528)
  = described_line 512 (slice memory_1k 512 528) /\
  String.length (render_line 2 0 (slice memory_1k 512 528)) = 74%nat /\
  render_line 2 0 [0; 1; 2; 3; 4; 5; 6; 7; 8; 9; 10; 11; 12; 13; 14; 15]
  = "0200  00 01 02 03 04 05 06 07  08 09 0A 0B 0C 0D 0E 0F  |................|".
Proof.
  apply (memory_line_format memory_1k 2 0).
  - lia.
  - lia.
  - vm_compute. reflexivity.
  - apply bytes_checked. vm_compute. reflexivity.
Defined.

(** C6, as the code has it.  [setPage] keeps whatever integer it is given:
    [page()] then returns it, and with a simulator attached the document is
    rebuilt from the window of that page, line [k] showing the bytes from
    [256 * n + 16 * k]; without a simulator the document is left alone. *)
Theorem setPage_stores_any (n : Z) (v : MemoryView) :
  page (setPage n v) = n /\
  simulator (setPage n v) = simulator v /\
  match simulator v with
  | Some m =>
      _te (setPage n v)
      = "<pre><code>" ++ cgi_escape (dump m n) ++ "</code></pre>" /\
      dump_lines m n
      = (fun k => render_line n (16 * k)
                    (slice m (256 * n + 16 * k) (256 * n + 16 * k + 16)))
          <$> range 16
  | None => _te (setPage n v) = _te v
  end.
Proof.
  unfold setPage, _refresh_mem, page. cbn [simulator _page _te].
  destruct (simulator v) as [m|] eqn:E; cbn [simulator _page _te].
  - repeat split;
      first [reflexivity | exact E | apply dump_lines_window].
  - repeat split; first [reflexivity | exact E].
Qed.

(** C6, the claim at page 256 and at page -1: the view on page 0 takes the
    new page both times, and at page 256 its dump starts at offset 10000,
    past the kilobyte of memory. *)
Lemma setPage_counterexample :
  page view_1k = 0 /\
  page (setPage 256 view_1k) = 256 /\
  page (setPage (-1) view_1k) = -1 /\
  dump_lines memory_1k 256 !! 0%nat
  = Some (render_line 256 0 []) /\
  dump_lines memory_1k 0 !! 0%nat
  = Some (render_line 0 0 (replicate 16 0)) /\
  _te (setPage 256 view_1k) <> _te (setPage 0 view_1k).
Proof.
  repeat split; try reflexivity.
  vm_compute. discriminate.
Qed.

(** *** Beyond a full line *)

Lemma all_chars_app (p : ascii -> bool) (a b : string) :
  all_chars p (a ++ b) = all_chars p a && all_chars p b.
Proof.
  induction a as [|c a IH]; [reflexivity|].
  change (all_chars p (String c (a ++ b))
          = all_chars p (String c a) && all_chars p b).
  cbn [all_chars]. by rewrite IH, andb_assoc.
Qed.


Lemma hex_digit_printable (d : Z) : printable (hex_digit d) = true.
Proof.
  unfold hex_digit. generalize (Z.to_nat d). intros k.
  do 17 (destruct k as [|k]; [reflexivity|]); reflexivity.
Qed.

Lemma hex_digits_printable (fuel : nat) (n : Z) (acc : string) :
  all_chars printable acc = true ->
  all_chars printable (hex_digits fuel n acc) = true.
Proof.
  revert n acc. induction fuel as [|fuel IH]; intros n acc Hacc; [done|].
  cbn [hex_digits].
  assert (H : all_chars printable (String (hex_digit (n mod 16)) acc) = true)
    by (cbn [all_chars]; by rewrite hex_digit_printable).
  destruct (n / 16 =? 0); [done|by apply IH].
Qed.

Lemma zeros_printable (k : nat) : all_chars printable (zeros k) = true.
Proof. induction k as [|k IH]; [done|exact IH]. Qed.

Lemma spaces_printable (k : nat) : all_chars printable (spaces k) = true.
Proof. induction k as [|k IH]; [done|exact IH]. Qed.

Lemma format_0X_printable (w : nat) (n : Z) :
  all_chars printable (format_0X w n) = true.
Proof.
  unfold format_0X. rewrite !all_chars_app, zeros_printable.
  rewrite hex_digits_printable by done. by destruct (n <? 0).
Qed.

Lemma concat_printable (sep : string) (l : list string) :
  all_chars printable sep = true ->
  Forall (fun x => all_chars printable x = true) l ->
  all_chars printable (String.concat sep l) = true.
Proof.
  intros Hsep. induction 1 as [|x l Hx Hl IH]; [done|].
  cbn [String.concat]. destruct l as [|y l]; [done|].
  by rewrite !all_chars_app, Hx, Hsep, IH.
Qed.

Lemma format_str_printable (w : nat) (x : string) :
  all_chars printable x = true ->
  all_chars printable (format_str w x) = true.
Proof.
  intros H. unfold format_str. by rewrite all_chars_app, H, spaces_printable.
Qed.

Lemma gloss_char_printable (b : Z) : printable (gloss_char b) = true.
Proof.
  unfold gloss_char.
  destruct (Z.ltb_spec b 32); [reflexivity|].
  destruct (Z.leb_spec 127 b); [reflexivity|]. cbn [orb].
  unfold printable, chr.
  replace (nat_of_ascii (ascii_of_N (Z.to_N b))) with (Z.to_nat b).
  - apply andb_true_intro. split; [apply Nat.leb_le|apply Nat.ltb_lt]; lia.
  - unfold nat_of_ascii. rewrite N_ascii_embedding by lia. lia.
Qed.

Lemma gloss_printable (l : list Z) : all_chars printable (gloss l) = true.
Proof.
  induction l as [|b l IH]; [done|].
  cbn [gloss all_chars]. by rewrite gloss_char_printable.
Qed.

Lemma render_line_printable_all (pg offset : Z) (contents : list Z) :
  all_chars printable (render_line pg offset contents) = true.
Proof.
  unfold render_line. rewrite asciirepr_gloss.
  rewrite !all_chars_app, format_0X_printable.
  rewrite !format_str_printable; [done|apply gloss_printable|].
  apply concat_printable; [done|].
  apply Forall_fmap, Forall_forall. intros o _. cbn.
  apply concat_printable; [done|].
  apply Forall_fmap, Forall_forall. intros b _. cbn.
  apply format_0X_printable.
Qed.

(** X1.  Whatever the page, the offset and the contents, integers of any
    size included, a rendered line holds printable ASCII characters only:
    no control character and no line break from memory gets into it. *)
Theorem render_line_printable (pg offset : Z) (contents : list Z) :
  all_chars printable (render_line pg offset contents) = true.
Proof. apply render_line_printable_all. Qed.


Lemma slice_span {A} (l : list A) (a n : Z) :
  0 <= a -> 0 <= n ->
  slice l a (a + n) = take (Z.to_nat n) (drop (Z.to_nat a) l).
Proof.
  intros Ha Hn.
  rewrite <- (Z2Nat.id a) at 1 2 by lia. rewrite <- (Z2Nat.id n) at 1 by lia.
  rewrite <- Nat2Z.inj_add, slice_take_drop by lia. f_equal. lia.
Qed.

Lemma Forall_slice {A} (P : A -> Prop) (l : list A) (a b : Z) :
  Forall P l -> Forall P (slice l a b).
Proof. intros H. unfold slice. by apply Forall_take, Forall_drop. Qed.

(** Consecutive chunks of sixteen laid end to end. *)
Lemma chunks16 {A} (l : list A) (k : nat) :
  concat ((fun i => take 16 (drop (16 * i) l)) <$> seq 0 k)
  = take (16 * k) l.
Proof.
  induction k as [|k IH]; [by rewrite Nat.mul_0_r, take_0|].
  rewrite seq_S, fmap_app, concat_app, IH. cbn [fmap list_fmap concat].
  rewrite app_nil_r, Nat.add_0_l, take_take_drop. f_equal. lia.
Qed.

(** X2.  On a page [pg >= 0] the sixteen lines of a refresh show, end to
    end, exactly the window [memory[256 * pg : 256 * pg + 256]]: no byte is
    skipped or shown twice, whatever the length of the memory, and no line
    has more than sixteen bytes. *)
Theorem mem_contents_window (m : list Z) (pg : Z) :
  0 <= pg ->
  concat (snd <$> mem_contents m pg) = slice m (256 * pg) (256 * pg + 256) /\
  Forall (fun c => (length c <= 16)%nat) (snd <$> mem_contents m pg).
Proof.
  intros Hpg. unfold mem_contents.
  change (range3 0 256 16)
    with [0; 16; 32; 48; 64; 80; 96; 112; 128; 144; 160; 176; 192; 208;
          224; 240].
  rewrite <- list_fmap_compose. cbn [fmap list_fmap compose snd].
  rewrite !slice_span by lia.
  change (Z.to_nat 16) with 16%nat. split.
  - rewrite !Z2Nat.inj_add by lia. rewrite <- !drop_drop.
    generalize (drop (Z.to_nat (256 * pg)) m). intros l.
    exact (chunks16 l 16).
  - repeat (constructor; [rewrite length_take; lia|]). constructor.
Qed.

Lemma mem_contents_window_witness :
  concat (snd <$> mem_contents memory_300 1) = slice memory_300 256 512 /\
  Forall (fun c => (length c <= 16)%nat) (snd <$> mem_contents memory_300 1).
Proof. apply (mem_contents_window memory_300 1). lia. Defined.

Lemma render_line_hexrepr (pg offset : Z) (contents : list Z) :
  render_line pg offset contents
  = format_0X 4 (pg * 256 + offset) ++ "  "
      ++ format_str 48 (hexrepr_with (format_0X 2) contents) ++ "  |"
      ++ format_str 16 (gloss contents) ++ "|".
Proof. unfold render_line. by rewrite asciirepr_gloss. Qed.

Lemma hexrepr_with_ext (f g : Z -> string) (contents : list Z) :
  Forall (fun b => f b = g b) contents ->
  hexrepr_with f contents = hexrepr_with g contents.
Proof.
  intros H. unfold hexrepr_with. f_equal.
  apply list_fmap_ext. intros _ o _. f_equal.
  apply Forall_fmap_ext_1. by apply Forall_slice.
Qed.

(** X3.  On a page of 0 to 255, a line of bytes is 74 characters wide
    whether it holds sixteen bytes or fewer: where the memory ends inside a
    page, the shorter lines are filled with spaces and the bars stay in
    their columns. *)
Theorem render_line_width (pg offset : Z) (contents : list Z) :
  0 <= pg * 256 + offset < 65536 ->
  (length contents <= 16)%nat ->
  Forall is_byte contents ->
  String.length (render_line pg offset contents) = 74%nat.
Proof.
  intros Hn Hlen Hb. rewrite render_line_hexrepr, format_quad by done.
  rewrite (hexrepr_with_ext _ hex_pair)
    by (eapply Forall_impl; [exact Hb|]; intros b; apply format_pair).
  clear Hb.
  do 17 (destruct contents as [|? contents]; [reflexivity|]).
  cbn [length] in Hlen. lia.
Qed.

Lemma render_line_width_witness :
  String.length (render_line 1 32 (slice memory_300 288 304)) = 74%nat.
Proof.
  apply (render_line_width 1 32 (slice memory_300 288 304)).
  - lia.
  - vm_compute. lia.
  - apply bytes_checked. vm_compute. reflexivity.
Defined.

Lemma cgi_escape_no_angle (x : string) :
  all_chars not_angle (cgi_escape x) = true.
Proof.
  induction x as [|a x IH]; [reflexivity|]. cbn [cgi_escape].
  rewrite all_chars_app, IH, andb_true_r.
  destruct (Ascii.eqb a "&") eqn:E1; [reflexivity|].
  destruct (Ascii.eqb a "<") eqn:E2; [reflexivity|].
  destruct (Ascii.eqb a ">") eqn:E3; [reflexivity|].
  cbn [all_chars]. unfold not_angle. by rewrite E2, E3.
Qed.

(** X4.  With a simulator attached, the document a refresh gives to the
    text edit is the dump between [<pre><code>] and [</code></pre>], and
    the dump part holds no angle bracket: whatever bytes the memory holds,
    they cannot open or close a tag. *)
Theorem refresh_document_escaped (v : MemoryView) (m : list Z) :
  simulator v = Some m ->
  exists body,
    _te (_refresh_mem v) = "<pre><code>" ++ body ++ "</code></pre>" /\
    body = cgi_escape (dump m (_page v)) /\
    all_chars not_angle body = true.
Proof.
  intros E. unfold _refresh_mem. rewrite E. cbn [_te].
  eexists. split; [reflexivity|]. split; [reflexivity|].
  apply cgi_escape_no_angle.
Qed.

Lemma refresh_document_escaped_witness :
  exists body,
    _te (_refresh_mem {| simulator := Some memory_300; _page := 0;
                         _te := "" |})
    = "<pre><code>" ++ body ++ "</code></pre>" /\
    body = cgi_escape (dump memory_300 0) /\
    all_chars not_angle body = true.
Proof.
  apply (refresh_document_escaped
           {| simulator := Some memory_300; _page := 0; _te := "" |}
           memory_300).
  reflexivity.
Defined.

(** X5.  Of two page changes in a row only the second shows: the view is
    left as the second alone would leave it, and a refresh right after a
    page change alters nothing. *)
Theorem setPage_last_wins (n k : Z) (v : MemoryView) :
  setPage n (setPage k v) = setPage n v /\
  _refresh_mem (setPage n v) = setPage n v.
Proof.
  unfold setPage, _refresh_mem. cbn [simulator _page _te].
  destruct (simulator v) as [m|] eqn:E; cbn [simulator _page _te];
    rewrite ?E; cbn [simulator _page _te]; split; reflexivity.
Qed.

Lemma line_breaks_app (a b : string) :
  line_breaks (a ++ b) = (line_breaks a + line_breaks b)%nat.
Proof.
  induction a as [|c a IH]; [reflexivity|].
  change (line_breaks (String c (a ++ b))
          = (line_breaks (String c a) + line_breaks b)%nat).
  cbn [line_breaks]. rewrite IH. lia.
Qed.

Lemma printable_no_line_break (t : string) :
  all_chars printable t = true -> line_breaks t = 0%nat.
Proof.
  induction t as [|a t IH]; [done|]. cbn [all_chars line_breaks].
  rewrite andb_true_iff. intros [Ha Ht]. rewrite (IH Ht).
  destruct (Ascii.eqb_spec a (ascii_of_nat 10)) as [->|_]; [|done].
  discriminate Ha.
Qed.

Lemma line_breaks_join (l : list string) :
  Forall (fun t => line_breaks t = 0%nat) l ->
  line_breaks (String.concat newline l) = (length l - 1)%nat.
Proof.
  induction 1 as [|t l Ht Hl IH]; [done|].
  cbn [String.concat]. destruct l as [|t' l]; [by rewrite Ht|].
  rewrite !line_breaks_app, Ht, IH.
  change (line_breaks newline) with 1%nat. cbn [length]. lia.
Qed.

(** X17.  Whatever the memory holds and whatever the page, the dump is a
    header and sixteen lines: it has exactly sixteen line breaks, one after
    the header and one between any two lines, because no byte of memory can
    put a line break into a line. *)
Theorem dump_seventeen_lines (m : list Z) (pg : Z) :
  length (dump_lines m pg) = 16%nat /\
  line_breaks (dump m pg) = 16%nat.
Proof.
  split; [reflexivity|]. unfold dump.
  cbn [String.concat]. rewrite !line_breaks_app.
  rewrite line_breaks_join.
  - reflexivity.
  - unfold dump_lines. apply Forall_fmap, Forall_forall.
    intros [o c] _. cbn. apply printable_no_line_break.
    apply render_line_printable_all.
Qed.

End Memory.

(** ** The hexadecimal spin box *)

Module SpinBox.

Import Burisim Reading PyFacts.
Local Open Scope string_scope.
Local Open Scope Z_scope.

























End SpinBox.

(** ** The screen view *)

Module Screens.

Import Display Reading.

(** X15.  Called once for each state of the attached screen, in turn,
    [contents_changed] never raises, asks for a repaint every time, and
    recomputes the geometry exactly as often as the size differs from the
    size at the call before (from the cached size, at the first call): a
    screen that keeps its size costs no new layout. *)
Theorem geometry_follows_size (scrs : list Screen) (v : ScreenView) :
  exists v',
    observe_all scrs v = (v', Ok tt) /\
    sv_updates v' = (sv_updates v + length scrs)%nat /\
    sv_geometry_updates v'
    = (sv_geometry_updates v
       + size_changes (_cached_screen_size v) (size <$> scrs))%nat.
Proof.
  revert v. induction scrs as [|scr scrs IH]; intros v.
  - exists v. cbn. repeat split; lia.
  - cbn [observe_all]. unfold contents_changed, observe.
    cbn [_screen _cached_screen_size sv_updates sv_geometry_updates].
    rewrite fmap_cons. cbn [size_changes length].
    destruct (decide (_cached_screen_size v = Some (size scr))) as [E|E].
    + destruct (IH {| _screen := Some scr;
                      _cached_screen_size := _cached_screen_size v;
                      sv_updates := S (sv_updates v);
                      sv_geometry_updates := sv_geometry_updates v |})
        as (v' & Hrun & Hu & Hg).
      exists v'. split; [exact Hrun|]. rewrite Hu, Hg. cbn. rewrite E.
      split; lia.
    + destruct (IH {| _screen := Some scr;
                      _cached_screen_size := Some (size scr);
                      sv_updates := S (sv_updates v);
                      sv_geometry_updates := S (sv_geometry_updates v) |})
        as (v' & Hrun & Hu & Hg).
      exists v'. split; [exact Hrun|]. rewrite Hu, Hg. cbn.
      split; lia.
Qed.





End Screens.
